(** * Auto-scaling Lambda handlers: a shallow embedding

    Two Lambda functions of the repository decide how to resize an EC2
    Auto Scaling Group:

    - [AiIncident]  : ai-incident-detection/aws-lambda/autoscale_handler.py
    - [N8nWorkflow] : n8n-workflow-files/lambda/auto_scale_handler.py

    Both are embedded as computations of a small state-and-exception monad.
    The state keeps what the Python process leaves behind (the calls made
    to AWS, the printed lines, the number of interactions with the outside
    world); the answers of the outside world (boto3 clients, the clock,
    [json.loads], the interpreter turning values into text) come from an
    environment record. *)

From Stdlib Require Import ZArith List String Bool Lia QArith.
Import ListNotations.

Set Warnings "-register-all".

Local Open Scope string_scope.
Local Open Scope list_scope.
Local Open Scope Z_scope.

(** ** Python values *)

(** The values a Lambda event is made of: what [json.loads] produces. A
    dict is kept as the list of its items, looked up from the front; a
    float as the rational it stands for. *)
Inductive pyval : Type :=
| PNone
| PBool (b : bool)
| PInt (z : Z)
| PFloat (q : Q)
| PStr (s : string)
| PList (l : list pyval)
| PDict (d : list (string * pyval)).

(** An f-string is kept as its pieces: literal text, [str(v)] of a value,
    [json.dumps(v)] of a value. *)
Inductive piece : Type :=
| Lit (s : string)
| Str (v : pyval)
| Json (v : pyval).

Definition text := list piece.

(** A raised exception: its class and what [str(e)] gives. *)
Record exn : Type := mkExn { exn_class : string; exn_msg : text }.

Inductive outcome (A : Type) : Type :=
| Ok (a : A)
| Raise (e : exn).
Arguments Ok {A} a.
Arguments Raise {A} e.

Definition type_name (v : pyval) : string :=
  match v with
  | PNone => "NoneType"
  | PBool _ => "bool"
  | PInt _ => "int"
  | PFloat _ => "float"
  | PStr _ => "str"
  | PList _ => "list"
  | PDict _ => "dict"
  end.

(** [v == s] for a string literal [s]. *)
Definition py_eq_str (v : pyval) (s : string) : bool :=
  match v with
  | PStr s' => String.eqb s' s
  | _ => false
  end.

Fixpoint dict_lookup {V : Type} (d : list (string * V)) (k : string) : option V :=
  match d with
  | [] => None
  | (k', v) :: rest => if String.eqb k' k then Some v else dict_lookup rest k
  end.

(** [d.get(k, default)] on a dict. *)
Definition dict_get (d : list (string * pyval)) (k : string) (default : pyval) : pyval :=
  match dict_lookup d k with
  | Some v => v
  | None => default
  end.

(** [sub in s] on strings. *)
Fixpoint str_contains (sub s : string) : bool :=
  if String.prefix sub s then true
  else match s with
       | EmptyString => false
       | String _ rest => str_contains sub rest
       end.

(** ** The outside world *)

Record Instance : Type := mkInstance {
  InstanceId : string;
  HealthStatus : string
}.

(** One entry of [response['AutoScalingGroups']]. *)
Record ASG : Type := mkASG {
  AutoScalingGroupName : string;
  DesiredCapacity : Z;
  MinSize : Z;
  MaxSize : Z;
  Instances : list Instance
}.

(** One entry of [response['Activities']]; [StartTime] is an aware
    datetime, kept as the microseconds from 1970-01-01T00:00:00 on the
    clock face of its time zone. *)
Record Activity : Type := mkActivity {
  StartTime : Z
}.

Record MetricDatum : Type := mkMetricDatum {
  MetricName : string;
  Value : Z;
  Unit : string;
  Timestamp : Z;
  Dimensions : list (string * pyval)
}.

(** The requests sent to AWS, with their keyword arguments. *)
Inductive Call : Type :=
| DescribeAutoScalingGroups (AutoScalingGroupNames : list string)
| DescribeScalingActivities (AutoScalingGroupName : string) (MaxRecords : Z)
| SetDesiredCapacity (AutoScalingGroupName : string) (DesiredCapacity : Z)
                     (HonorCooldown : bool)
| PutMetricData (Namespace : string) (MetricData : list MetricDatum).

(** What the outside world answers. The first argument of every field but
    [json_loads] is the number of interactions that came before, so that
    two calls of one operation may be answered differently and the clock
    may advance between two readings.

    [render t x] is what the interpreter does when it is asked for the
    characters of the values of the text [x]: [str(v)] and the fields of an
    f-string, [json.dumps(v)]. It answers [None] when it produces them and
    the exception it raises otherwise: a ValueError for an int with more
    digits than the conversion limit of the interpreter, a RecursionError
    for a value nested deeper than the stack has room for. Which values are
    refused depends on the interpreter and on the depth of the call, not on
    the program. *)
Record Env : Type := mkEnv {
  describe_auto_scaling_groups : nat -> list string -> outcome (list ASG);
  describe_scaling_activities : nat -> string -> Z -> outcome (list Activity);
  set_desired_capacity : nat -> string -> Z -> bool -> outcome unit;
  put_metric_data : nat -> string -> list MetricDatum -> outcome unit;
  datetime_now : nat -> Z;
  json_loads : string -> outcome pyval;
  render : nat -> text -> option exn
}.

(** What a run leaves behind. *)
Record St : Type := mkSt {
  tick : nat;
  calls : list Call;
  log : list text
}.

Definition st0 : St := mkSt 0 [] [].

(** ** The monad *)

Definition M (A : Type) : Type := St -> outcome A * St.

Definition ret {A : Type} (a : A) : M A := fun s => (Ok a, s).

Definition bind {A B : Type} (m : M A) (f : A -> M B) : M B :=
  fun s => match m s with
           | (Ok a, s') => f a s'
           | (Raise e, s') => (Raise e, s')
           end.

Definition raise {A : Type} (e : exn) : M A := fun s => (Raise e, s).

(** A value or an exception computed without touching the world. *)
Definition lift {A : Type} (o : outcome A) : M A := fun s => (o, s).

(** [try: m  except Exception as e: h e]; every exception of the model is
    an [Exception]. *)
Definition try_except {A : Type} (m : M A) (h : exn -> M A) : M A :=
  fun s => match m s with
           | (Ok a, s') => (Ok a, s')
           | (Raise e, s') => h e s'
           end.

Declare Scope py_scope.
Delimit Scope py_scope with py.
Notation "x <- m ;; k" := (bind m (fun x => k))
  (at level 61, m at next level, right associativity) : py_scope.
Notation "m ;; k" := (bind m (fun _ => k))
  (at level 61, right associativity) : py_scope.
Local Open Scope py_scope.

(** [print(s)] of a string that is already built: a literal, the message
    of an exception, the value of an f-string. *)
Definition print (t : text) : M unit :=
  fun s => (Ok tt, mkSt (tick s) (calls s) (log s ++ [t])).

(** Whether a text has a value to turn into characters. *)
Definition holds_values (t : text) : bool :=
  existsb (fun p => match p with Lit _ => false | _ => true end) t.

(** The evaluation of an f-string, or of [json.dumps]: literal text is
    always produced; the characters of a value are asked from the
    interpreter, which may raise. Nothing is left behind either way. *)
Definition fstring (env : Env) (t : text) : M text :=
  fun s => if holds_values t then
             match render env (tick s) t with
             | None => (Ok t, s)
             | Some e => (Raise e, s)
             end
           else (Ok t, s).

(** [print(f"...")] *)
Definition printf (env : Env) (t : text) : M unit :=
  line <- fstring env t ;; print line.

(** One interaction with AWS: the request is recorded, the environment
    answers. *)
Definition aws {A : Type} (c : Call) (answer : nat -> outcome A) : M A :=
  fun s => (answer (tick s), mkSt (S (tick s)) (calls s ++ [c]) (log s)).

(** [datetime.now(tz)], [datetime.utcnow()]: one reading of the clock. *)
Definition now (env : Env) : M Z :=
  fun s => (Ok (datetime_now env (tick s)), mkSt (S (tick s)) (calls s) (log s)).

(** [v.get(k, default)]: only a dict has the method. *)
Definition py_get (v : pyval) (k : string) (default : pyval) : M pyval :=
  match v with
  | PDict d => ret (dict_get d k default)
  | _ => raise (mkExn "AttributeError"
                  [Lit "'"; Lit (type_name v); Lit "' object has no attribute 'get'"])
  end.

(** [v > n] for an int literal [n]: numbers compare (a bool is an int),
    anything else is a TypeError. *)
Definition py_gt_int (v : pyval) (n : Z) : M bool :=
  match v with
  | PInt z => ret (n <? z)
  | PBool b => ret (n <? (if b then 1 else 0))
  | PFloat q => ret (negb (Qle_bool q (inject_Z n)))
  | _ => raise (mkExn "TypeError"
                  [Lit "'>' not supported between instances of '";
                   Lit (type_name v); Lit "' and 'int'"])
  end.

(** A value of a response body: a bool, an int, a string literal, the
    string an f-string gave, a value of the event, the [isoformat()] of a
    reading of the clock. *)
Inductive field : Type :=
| FBool (b : bool)
| FInt (z : Z)
| FStr (s : string)
| FText (t : text)
| FVal (v : pyval)
| FTime (t : Z).

(** What [json.dumps(body)] has to turn into characters: the ints of the
    body and the values that come from the event. The strings and the
    bools are always encoded. *)
Definition json_values (body : list (string * field)) : text :=
  flat_map (fun kv => match snd kv with
                      | FInt z => [Json (PInt z)]
                      | FVal v => [Json v]
                      | _ => []
                      end) body.

(** [json.dumps(body)]: the encoding is not kept, the body is. *)
Definition json_dumps (env : Env) (body : list (string * field)) : M unit :=
  fstring env (json_values body) ;; ret tt.

(** ** ai-incident-detection/aws-lambda/autoscale_handler.py *)

Module AiIncident.

(** The module-level configuration read from the process environment. *)
Record Config : Type := mkConfig {
  AUTO_SCALING_GROUP_NAME : string;
  MIN_CAPACITY : Z;
  MAX_CAPACITY : Z;
  SCALE_UP_INCREMENT : Z;
  SCALE_DOWN_INCREMENT : Z
}.

(** The values used when the environment variables are not set. *)
Definition default_config : Config :=
  mkConfig "production-asg" 2 10 2 1.

Record AsgInfo : Type := mkAsgInfo {
  name : string;
  desired_capacity : Z;
  min_size : Z;
  max_size : Z;
  instance_count : Z;
  instances : list Instance;
  health_status : list string
}.

Definition Result := list (string * field).

Record Response : Type := mkResponse {
  statusCode : Z;
  body : Result
}.

Section Handler.

Variable cfg : Config.
Variable env : Env.

Definition get_asg_info : M AsgInfo :=
  groups <- aws (DescribeAutoScalingGroups [AUTO_SCALING_GROUP_NAME cfg])
                (fun t => describe_auto_scaling_groups env t [AUTO_SCALING_GROUP_NAME cfg]) ;;
  match groups with
  | [] => raise (mkExn "Exception"
                   [Lit "Auto Scaling Group '"; Lit (AUTO_SCALING_GROUP_NAME cfg);
                    Lit "' not found"])
  | asg :: _ =>
      ret (mkAsgInfo (AutoScalingGroupName asg) (DesiredCapacity asg)
             (MinSize asg) (MaxSize asg)
             (Z.of_nat (List.length (Instances asg))) (Instances asg)
             (map HealthStatus (Instances asg)))
  end.

(** The increment [scale_up] settles on. *)
Definition scale_up_increment (severity ai_confidence : pyval) : M Z :=
  aggressive <- (if py_eq_str severity "critical" then ret true
                 else py_gt_int ai_confidence 90) ;;
  ret (if aggressive : bool then SCALE_UP_INCREMENT cfg * 2
       else SCALE_UP_INCREMENT cfg).

(** The f-strings of a returned dict are evaluated in the order of its
    items, after the call to AWS. *)
Definition scale_up (asg_info : AsgInfo) (alert_type severity ai_confidence : pyval)
  : M Result :=
  let current_capacity := desired_capacity asg_info in
  increment <- scale_up_increment severity ai_confidence ;;
  let new_capacity := Z.min (current_capacity + increment) (MAX_CAPACITY cfg) in
  if new_capacity =? current_capacity then
    message <- fstring env [Lit "Already at maximum capacity (";
                            Str (PInt (MAX_CAPACITY cfg)); Lit ")"] ;;
    ret [("action", FStr "no_change");
         ("message", FText message);
         ("current_capacity", FInt current_capacity);
         ("max_capacity", FInt (MAX_CAPACITY cfg))]
  else
    printf env [Lit "Scaling UP: "; Str (PInt current_capacity); Lit " -> ";
                Str (PInt new_capacity)] ;;
    aws (SetDesiredCapacity (AUTO_SCALING_GROUP_NAME cfg) new_capacity false)
        (fun t => set_desired_capacity env t (AUTO_SCALING_GROUP_NAME cfg)
                    new_capacity false) ;;
    message <- fstring env [Lit "Scaled from "; Str (PInt current_capacity);
                            Lit " to "; Str (PInt new_capacity); Lit " instances"] ;;
    reason <- fstring env [Str severity; Lit " "; Str alert_type; Lit " alert with ";
                           Str ai_confidence; Lit "% AI confidence"] ;;
    ret [("action", FStr "scaled_up");
         ("message", FText message);
         ("previous_capacity", FInt current_capacity);
         ("new_capacity", FInt new_capacity);
         ("increment", FInt increment);
         ("reason", FText reason);
         ("estimated_ready_time", FStr "2-5 minutes")].

Definition scale_down (asg_info : AsgInfo) : M Result :=
  let current_capacity := desired_capacity asg_info in
  let new_capacity :=
    Z.max (current_capacity - SCALE_DOWN_INCREMENT cfg) (MIN_CAPACITY cfg) in
  if new_capacity =? current_capacity then
    message <- fstring env [Lit "Already at minimum capacity (";
                            Str (PInt (MIN_CAPACITY cfg)); Lit ")"] ;;
    ret [("action", FStr "no_change");
         ("message", FText message);
         ("current_capacity", FInt current_capacity);
         ("min_capacity", FInt (MIN_CAPACITY cfg))]
  else
    printf env [Lit "Scaling DOWN: "; Str (PInt current_capacity); Lit " -> ";
                Str (PInt new_capacity)] ;;
    aws (SetDesiredCapacity (AUTO_SCALING_GROUP_NAME cfg) new_capacity true)
        (fun t => set_desired_capacity env t (AUTO_SCALING_GROUP_NAME cfg)
                    new_capacity true) ;;
    message <- fstring env [Lit "Scaled from "; Str (PInt current_capacity);
                            Lit " to "; Str (PInt new_capacity); Lit " instances"] ;;
    ret [("action", FStr "scaled_down");
         ("message", FText message);
         ("previous_capacity", FInt current_capacity);
         ("new_capacity", FInt new_capacity);
         ("decrement", FInt (SCALE_DOWN_INCREMENT cfg));
         ("reason", FStr "Load decreased, scaling down to save costs")].

Definition log_scaling_event (action alert_type : pyval) (result : Result) : M unit :=
  try_except
    (ts <- now env ;;
     let data := [mkMetricDatum "ScalingAction" 1 "Count" ts
                    [("Action", action); ("AlertType", alert_type);
                     ("ASG", PStr (AUTO_SCALING_GROUP_NAME cfg))]] in
     aws (PutMetricData "AIIncidentDetection" data)
         (fun t => put_metric_data env t "AIIncidentDetection" data))
    (fun e => print (Lit "Failed to log to CloudWatch: " :: exn_msg e)).

(** The body of the [try] of [lambda_handler]; its first statement is the
    print of the event. *)
Definition lambda_handler_try (event : pyval) : M Response :=
  printf env [Lit "Received event: "; Json event] ;;
  action <- py_get event "action" (PStr "analyze") ;;
  alert_type <- py_get event "alert_type" (PStr "unknown") ;;
  severity <- py_get event "severity" (PStr "warning") ;;
  ai_confidence <- py_get event "ai_confidence" (PInt 0) ;;
  asg_info <- get_asg_info ;;
  let current_capacity := desired_capacity asg_info in
  let current_instances := instance_count asg_info in
  printf env [Lit "Current ASG state - Desired: "; Str (PInt current_capacity);
              Lit ", Running: "; Str (PInt current_instances)] ;;
  result <- (if py_eq_str action "scale_up" then
               scale_up asg_info alert_type severity ai_confidence
             else if py_eq_str action "scale_down" then
               scale_down asg_info
             else
               ret [("action", FStr "no_change");
                    ("message", FStr "Analysis only, no scaling action taken");
                    ("current_capacity", FInt current_capacity)]) ;;
  log_scaling_event action alert_type result ;;
  ts <- now env ;;
  let body := [("success", FBool true); ("timestamp", FTime ts);
               ("asg_name", FStr (AUTO_SCALING_GROUP_NAME cfg))] ++ result in
  json_dumps env body ;;
  ret (mkResponse 200 body).

Definition lambda_handler (event : pyval) : M Response :=
  try_except (lambda_handler_try event)
    (fun e =>
       print (Lit "Error: " :: exn_msg e) ;;
       ts <- now env ;;
       let body := [("success", FBool false); ("error", FText (exn_msg e));
                    ("timestamp", FTime ts)] in
       json_dumps env body ;;
       ret (mkResponse 500 body)).

End Handler.

End AiIncident.

(** ** n8n-workflow-files/lambda/auto_scale_handler.py *)

Module N8nWorkflow.

(** The module-level configuration read from the process environment. *)
Record Config : Type := mkConfig {
  ASG_NAME : string;
  MIN_INSTANCES : Z;
  MAX_INSTANCES : Z;
  SCALE_UP_AMOUNT : Z;
  COOLDOWN_PERIOD : Z;
  REGION : string
}.

(** The values used when the environment variables are not set. *)
Definition default_config : Config :=
  mkConfig "production-asg" 2 10 2 300 "us-east-1".

Record AsgInfo : Type := mkAsgInfo {
  desired_capacity : Z;
  min_size : Z;
  max_size : Z;
  current_instances : Z;
  instances : list Instance
}.

Record Response : Type := mkResponse {
  statusCode : Z;
  headers : list (string * string);
  body : list (string * field)
}.

(** *** Datetimes *)

(** [datetime.min] and [datetime.max], 0001-01-01T00:00:00 and
    9999-12-31T23:59:59.999999, in microseconds from 1970-01-01T00:00:00. *)
Definition datetime_min : Z := -62135596800000000.
Definition datetime_max : Z := 253402300799999999.

(** [timedelta(seconds=n)] in microseconds. The days of a timedelta are a
    C int of magnitude at most 999999999. *)
Definition timedelta_seconds (n : Z) : outcome Z :=
  let days := n / 86400 in
  if (days <? -2147483648) || (2147483647 <? days) then
    Raise (mkExn "OverflowError" [Lit "Python int too large to convert to C int"])
  else if (days <? -999999999) || (999999999 <? days) then
    Raise (mkExn "OverflowError"
             [Lit "days="; Str (PInt days); Lit "; must have magnitude <= 999999999"])
  else Ok (n * 1000000).

(** [t + delta] for a datetime and a timedelta: the sum has to be a
    datetime. *)
Definition datetime_add (t delta : Z) : outcome Z :=
  if (t + delta <? datetime_min) || (datetime_max <? t + delta) then
    Raise (mkExn "OverflowError" [Lit "date value out of range"])
  else Ok (t + delta).

(** [n / d] rounded to the nearest integer, halves to the even one, for
    [0 <= n] and [0 < d]. *)
Definition round_half_even (n d : Z) : Z :=
  let q := n / d in
  let r := n mod d in
  if 2 * r <? d then q
  else if d <? 2 * r then q + 1
  else if Z.even q then q else q + 1.

(** [int(n / d)] for ints [0 < n] and [0 < d]. The true division gives the
    float nearest to the quotient: a significand [m] of 53 bits scaled by
    [2^e], where [e + 52] is the integer part of the binary logarithm of the
    quotient; [int] truncates that float. *)
Definition int_of_true_division (n d : Z) : Z :=
  let l := Z.log2 n - Z.log2 d in
  let l := if n * 2 ^ Z.max 0 (- l) <? d * 2 ^ Z.max 0 l then l - 1 else l in
  let e := l - 52 in
  let m := round_half_even (n * 2 ^ Z.max 0 (- e)) (d * 2 ^ Z.max 0 e) in
  if 0 <=? e then m * 2 ^ e else m / 2 ^ (- e).

(** [int(td.total_seconds())] of a timedelta of [us] microseconds:
    [total_seconds] is the float [us / 10**6]. *)
Definition int_total_seconds (us : Z) : Z :=
  if us =? 0 then 0
  else Z.sgn us * int_of_true_division (Z.abs us) 1000000.

(** *** The handler *)

(** The response that [create_response] builds; the body is kept as the
    dict handed to [json.dumps]. *)
Definition response (status_code : Z) (body : list (string * field)) : Response :=
  mkResponse status_code
    [("Content-Type", "application/json"); ("Access-Control-Allow-Origin", "*")]
    body.

(** ['body' in event] *)
Definition has_body (event : pyval) : M bool :=
  match event with
  | PDict d => ret (match dict_lookup d "body" with Some _ => true | None => false end)
  | PList l => ret (existsb (fun v => py_eq_str v "body") l)
  | PStr s => ret (str_contains "body" s)
  | _ => raise (mkExn "TypeError"
                  [Lit "argument of type '"; Lit (type_name event);
                   Lit "' is not iterable"])
  end.

(** [event['body']] *)
Definition get_body (event : pyval) : M pyval :=
  match event with
  | PDict d => match dict_lookup d "body" with
               | Some v => ret v
               | None => raise (mkExn "KeyError" [Lit "'body'"])
               end
  | PList _ => raise (mkExn "TypeError"
                        [Lit "list indices must be integers or slices, not str"])
  | PStr _ => raise (mkExn "TypeError"
                       [Lit "string indices must be integers, not 'str'"])
  | _ => raise (mkExn "TypeError"
                  [Lit "'"; Lit (type_name event); Lit "' object is not subscriptable"])
  end.

Section Handler.

Variable cfg : Config.
Variable env : Env.

(** [create_response]: [json.dumps(body, default=str)], then the dict. *)
Definition create_response (status_code : Z) (body : list (string * field))
  : M Response :=
  json_dumps env body ;;
  ret (response status_code body).

(** The subscript [event['body']] is evaluated for the [isinstance] test
    and again for [json.loads]; it has no effect and is read once here. *)
Definition parse_event (event : pyval) : M pyval :=
  from_gateway <- has_body event ;;
  if from_gateway : bool then
    b <- get_body event ;;
    match b with
    | PStr s => lift (json_loads env s)
    | _ => ret b
    end
  else ret event.

Definition get_asg_info (asg_name : string) : M AsgInfo :=
  groups <- aws (DescribeAutoScalingGroups [asg_name])
                (fun t => describe_auto_scaling_groups env t [asg_name]) ;;
  match groups with
  | [] => raise (mkExn "ValueError" [Lit "ASG "; Lit asg_name; Lit " not found"])
  | asg :: _ =>
      ret (mkAsgInfo (DesiredCapacity asg) (MinSize asg) (MaxSize asg)
             (Z.of_nat (List.length (Instances asg))) (Instances asg))
  end.

(** [activity_time + timedelta(seconds=COOLDOWN_PERIOD)]: the end of the
    cooldown opened by an activity, when it is a datetime. *)
Definition cooldown_end (last_activity : Activity) : outcome Z :=
  match timedelta_seconds (COOLDOWN_PERIOD cfg) with
  | Ok delta => datetime_add (StartTime last_activity) delta
  | Raise e => Raise e
  end.

Definition is_in_cooldown (asg_name : string) : M bool :=
  try_except
    (activities <- aws (DescribeScalingActivities asg_name 1)
                       (fun t => describe_scaling_activities env t asg_name 1) ;;
     match activities with
     | last_activity :: _ =>
         finish <- lift (cooldown_end last_activity) ;;
         t <- now env ;;
         ret (t <? finish)
     | [] => ret false
     end)
    (fun e => print (Lit "Error checking cooldown: " :: exn_msg e) ;; ret false).

Definition get_cooldown_remaining (asg_name : string) : M Z :=
  try_except
    (activities <- aws (DescribeScalingActivities asg_name 1)
                       (fun t => describe_scaling_activities env t asg_name 1) ;;
     match activities with
     | last_activity :: _ =>
         finish <- lift (cooldown_end last_activity) ;;
         t <- now env ;;
         let remaining := int_total_seconds (finish - t) in
         ret (Z.max 0 remaining)
     | [] => ret 0
     end)
    (fun e => print (Lit "Error getting cooldown remaining: " :: exn_msg e) ;; ret 0).

Definition send_scaling_metric (asg_name : string) (alert_type : pyval)
    (action : string) (capacity_change : Z) : M unit :=
  try_except
    (t1 <- now env ;;
     t2 <- now env ;;
     let data :=
       [mkMetricDatum "ScalingActivities" 1 "Count" t1
          [("AutoScalingGroupName", PStr asg_name); ("AlertType", alert_type);
           ("Action", PStr action)];
        mkMetricDatum "CapacityChange" capacity_change "Count" t2
          [("AutoScalingGroupName", PStr asg_name); ("Action", PStr action)]] in
     aws (PutMetricData "CustomMetrics/AutoScaling" data)
         (fun t => put_metric_data env t "CustomMetrics/AutoScaling" data) ;;
     print [Lit "Sent scaling metrics to CloudWatch"])
    (fun e => print (Lit "Error sending metrics: " :: exn_msg e)).

Definition handle_scale_up (asg_name : string) (current_capacity : Z)
    (alert_type metric_value ai_confidence : pyval) : M Response :=
  let new_capacity := Z.min (current_capacity + SCALE_UP_AMOUNT cfg) (MAX_INSTANCES cfg) in
  if new_capacity <=? current_capacity then
    message <- fstring env [Lit "Already at maximum capacity (";
                            Str (PInt (MAX_INSTANCES cfg)); Lit " instances)"] ;;
    print message ;;
    send_scaling_metric asg_name alert_type "scale_up_rejected" 0 ;;
    create_response 200
      [("message", FText message);
       ("current_capacity", FInt current_capacity);
       ("max_capacity", FInt (MAX_INSTANCES cfg));
       ("recommendation", FStr "Consider increasing MAX_INSTANCES limit")]
  else
    printf env [Lit "Scaling up from "; Str (PInt current_capacity); Lit " to ";
                Str (PInt new_capacity)] ;;
    aws (SetDesiredCapacity asg_name new_capacity false)
        (fun t => set_desired_capacity env t asg_name new_capacity false) ;;
    send_scaling_metric asg_name alert_type "scale_up" (new_capacity - current_capacity) ;;
    scaled_at <- now env ;;
    message <- fstring env [Lit "Successfully scaled up from "; Str (PInt current_capacity);
                            Lit " to "; Str (PInt new_capacity); Lit " instances"] ;;
    print message ;;
    ts <- now env ;;
    create_response 200
      [("success", FBool true);
       ("message", FText message);
       ("previous_capacity", FInt current_capacity);
       ("new_capacity", FInt new_capacity);
       ("instances_added", FInt (new_capacity - current_capacity));
       ("alert_type", FVal alert_type);
       ("metric_value", FVal metric_value);
       ("ai_confidence", FVal ai_confidence);
       ("timestamp", FTime ts);
       ("estimated_ready_time", FStr "3-5 minutes")].

Definition handle_scale_down (asg_name : string) (current_capacity : Z)
    (alert_type : pyval) : M Response :=
  let new_capacity := Z.max (current_capacity - 1) (MIN_INSTANCES cfg) in
  if new_capacity >=? current_capacity then
    message <- fstring env [Lit "Already at minimum capacity (";
                            Str (PInt (MIN_INSTANCES cfg)); Lit " instances)"] ;;
    print message ;;
    create_response 200
      [("message", FText message);
       ("current_capacity", FInt current_capacity);
       ("min_capacity", FInt (MIN_INSTANCES cfg))]
  else
    printf env [Lit "Scaling down from "; Str (PInt current_capacity); Lit " to ";
                Str (PInt new_capacity)] ;;
    aws (SetDesiredCapacity asg_name new_capacity true)
        (fun t => set_desired_capacity env t asg_name new_capacity true) ;;
    send_scaling_metric asg_name alert_type "scale_down" (current_capacity - new_capacity) ;;
    message <- fstring env [Lit "Successfully scaled down from ";
                            Str (PInt current_capacity);
                            Lit " to "; Str (PInt new_capacity); Lit " instances"] ;;
    print message ;;
    ts <- now env ;;
    create_response 200
      [("success", FBool true);
       ("message", FText message);
       ("previous_capacity", FInt current_capacity);
       ("new_capacity", FInt new_capacity);
       ("instances_removed", FInt (current_capacity - new_capacity));
       ("timestamp", FTime ts)].

(** The body of the [try] of [lambda_handler]. *)
Definition lambda_handler_try (event : pyval) : M Response :=
  body <- parse_event event ;;
  alert_type <- py_get body "alert_type" (PStr "unknown") ;;
  instance <- py_get body "instance" (PStr "unknown") ;;
  metric_value <- py_get body "metric_value" (PInt 0) ;;
  ai_confidence <- py_get body "ai_confidence" (PStr "unknown") ;;
  action <- py_get body "action" (PStr "scale_up") ;;
  printf env [Lit "Processing "; Str action; Lit " request for "; Str alert_type;
              Lit " alert"] ;;
  printf env [Lit "Instance: "; Str instance; Lit ", Metric: "; Str metric_value;
              Lit ", AI Confidence: "; Str ai_confidence] ;;
  in_cooldown <- is_in_cooldown (ASG_NAME cfg) ;;
  if in_cooldown : bool then
    remaining <- get_cooldown_remaining (ASG_NAME cfg) ;;
    create_response 200
      [("message", FStr "Scaling action skipped - in cooldown period");
       ("alert_type", FVal alert_type);
       ("cooldown_remaining", FInt remaining)]
  else
    asg_info <- get_asg_info (ASG_NAME cfg) ;;
    let current_capacity := desired_capacity asg_info in
    let current_instances := current_instances asg_info in
    printf env [Lit "Current ASG - Desired: "; Str (PInt current_capacity);
                Lit ", Running: "; Str (PInt current_instances)] ;;
    if py_eq_str action "scale_up" then
      handle_scale_up (ASG_NAME cfg) current_capacity alert_type metric_value
        ai_confidence
    else if py_eq_str action "scale_down" then
      handle_scale_down (ASG_NAME cfg) current_capacity alert_type
    else
      error <- fstring env [Lit "Unknown action: "; Str action] ;;
      create_response 400 [("error", FText error)].

(** The print of the event comes before the [try]: what it raises leaves
    the handler. [traceback.print_exc()] writes the traceback, which ends
    with the exception's class and message. *)
Definition lambda_handler (event : pyval) : M Response :=
  printf env [Lit "Received event: "; Json event] ;;
  try_except (lambda_handler_try event)
    (fun e =>
       print (Lit "Error in lambda_handler: " :: exn_msg e) ;;
       print (Lit "Traceback (most recent call last): " :: Lit (exn_class e)
                :: Lit ": " :: exn_msg e) ;;
       create_response 500
         [("error", FStr "Internal server error");
          ("message", FText (exn_msg e));
          ("alert_sent_to_ops", FBool true)]).

End Handler.

End N8nWorkflow.

(** ** The instance health checks of auto_scale_handler.py *)

Module N8nHealth.

(** One entry of [response['InstanceStatuses']]: the three fields the
    check reads, [status['InstanceState']['Name']],
    [status['InstanceStatus']['Status']] and
    [status['SystemStatus']['Status']]. *)
Record InstanceStatus : Type := mkInstanceStatus {
  InstanceState_Name : string;
  InstanceStatus_Status : string;
  SystemStatus_Status : string
}.

(** What the EC2 client answers to [describe_instance_status], after as
    many interactions as its first argument says. *)
Record Ec2 : Type := mkEc2 {
  describe_instance_status : nat -> list string -> outcome (list InstanceStatus)
}.

(** One status query to EC2: an interaction that reads and changes
    nothing; like a reading of the clock it is counted and not kept among
    [calls], which holds the requests to the Auto Scaling and CloudWatch
    clients. *)
Definition ec2_query {A : Type} (answer : nat -> outcome A) : M A :=
  fun s => (answer (tick s), mkSt (S (tick s)) (calls s) (log s)).

Section Checks.

Variable env : Env.
Variable ec2 : Ec2.

Definition get_instance_health (instance_id : string) : M bool :=
  try_except
    (statuses <- ec2_query (fun t => describe_instance_status ec2 t [instance_id]) ;;
     match statuses with
     | status :: _ =>
         ret (String.eqb (InstanceState_Name status) "running"
              && String.eqb (InstanceStatus_Status status) "ok"
              && String.eqb (SystemStatus_Status status) "ok")
     | [] => ret false
     end)
    (fun e => print (Lit "Error checking instance health: " :: exn_msg e) ;; ret false).

(** The [for] loop of [get_unhealthy_instances] over the instances left,
    with the list [unhealthy] built so far. *)
Fixpoint check_instances (instances : list Instance) (unhealthy : list string)
  : M (list string) :=
  match instances with
  | [] => ret unhealthy
  | instance :: rest =>
      let instance_id := InstanceId instance in
      healthy <- get_instance_health instance_id ;;
      check_instances rest
        (if healthy : bool then unhealthy else unhealthy ++ [instance_id])
  end.

Definition get_unhealthy_instances (asg_name : string) : M (list string) :=
  try_except
    (asg_info <- N8nWorkflow.get_asg_info env asg_name ;;
     check_instances (N8nWorkflow.instances asg_info) [])
    (fun e => print (Lit "Error getting unhealthy instances: " :: exn_msg e) ;; ret []).

End Checks.

End N8nHealth.

(** ** n8n-workflow-files/scripts/error_generator.py *)

(** The request handlers of the test server that keep the counters. The
    module-level dicts [stats] and [config] are the state of the
    application; a handler is run on its own, from the state it finds to
    the state it leaves, with what it draws from [random], what
    [time.sleep] does and the clock it reads given from outside. The rates
    and the delay are floats, kept as the rationals they stand for. A
    handler that raises returns no response of its own. *)
Module ErrorGenerator.

Record Stats : Type := mkStats {
  total_requests : Z;
  count_2xx : Z;
  count_4xx : Z;
  count_5xx : Z;
  start_time : Z
}.

Record Config : Type := mkConfig {
  error_rate_5xx : Q;
  error_rate_4xx : Q;
  response_delay : Q
}.

(** [draws] counts the calls to the [random] module so far, [slept] keeps
    the delays that [time.sleep] has waited for. *)
Record App : Type := mkApp {
  stats : Stats;
  config : Config;
  draws : nat;
  slept : list Q
}.

(** The configuration the module starts with. *)
Definition initial_config : Config := mkConfig 0 0 0.

(** What the [random] module gives at each call: the float of
    [random.random()], and the index that [random.choice] takes in a
    sequence of the given length. *)
Record Chance : Type := mkChance {
  random : nat -> Q;
  randbelow : nat -> nat -> nat
}.

(** What [time.sleep] does with a delay: [None] when it waits and returns,
    the exception it raises otherwise (an OverflowError for a delay that
    does not fit the timestamps of the platform). *)
Definition Sleep : Type := Q -> option exn.

Definition Qltb (x y : Q) : bool := negb (Qle_bool y x).

(** [random.choice(seq)] *)
Definition random_choice (ch : Chance) (t : nat) (seq : list Z) : Z :=
  nth (randbelow ch t (List.length seq)) seq 0.

Definition with_stats (app : App) (s : Stats) : App :=
  mkApp s (config app) (draws app) (slept app).

(** The request is counted before the delay: when [time.sleep] raises, the
    total has been incremented and no class counter. *)
Definition test_endpoint (ch : Chance) (sleep : Sleep) (now : Z) (app : App)
  : outcome (list (string * field) * Z) * App :=
  let s0 := stats app in
  let s1 := mkStats (total_requests s0 + 1) (count_2xx s0) (count_4xx s0) (count_5xx s0)
                    (start_time s0) in
  let delay := response_delay (config app) in
  match (if Qltb 0 delay then sleep delay else None) with
  | Some e => (Raise e, with_stats app s1)
  | None =>
      let slept1 := if Qltb 0 delay then slept app ++ [delay] else slept app in
      let t := draws app in
      if Qltb (random ch t) (error_rate_5xx (config app)) then
        let s2 := mkStats (total_requests s1) (count_2xx s1) (count_4xx s1)
                          (count_5xx s1 + 1) (start_time s1) in
        let error_codes := [500; 502; 503; 504] in
        let status_code := random_choice ch (S t) error_codes in
        (Ok ([("error", FStr "Internal Server Error");
              ("message", FText [Lit "Simulated "; Str (PInt status_code); Lit " error"]);
              ("timestamp", FTime now)], status_code),
         mkApp s2 (config app) (S (S t)) slept1)
      else if Qltb (random ch (S t)) (error_rate_4xx (config app)) then
        let s2 := mkStats (total_requests s1) (count_2xx s1) (count_4xx s1 + 1)
                          (count_5xx s1) (start_time s1) in
        let error_codes := [400; 401; 403; 404; 429] in
        let status_code := random_choice ch (S (S t)) error_codes in
        (Ok ([("error", FStr "Client Error");
              ("message", FText [Lit "Simulated "; Str (PInt status_code); Lit " error"]);
              ("timestamp", FTime now)], status_code),
         mkApp s2 (config app) (S (S (S t))) slept1)
      else
        let s2 := mkStats (total_requests s1) (count_2xx s1 + 1) (count_4xx s1)
                          (count_5xx s1) (start_time s1) in
        (Ok ([("status", FStr "success");
              ("message", FStr "Request processed successfully");
              ("timestamp", FTime now)], 200),
         mkApp s2 (config app) (S (S t)) slept1)
  end.

Definition always_500 (now : Z) (app : App) : (list (string * field) * Z) * App :=
  let s0 := stats app in
  let s1 := mkStats (total_requests s0 + 1) (count_2xx s0) (count_4xx s0) (count_5xx s0)
                    (start_time s0) in
  let s2 := mkStats (total_requests s1) (count_2xx s1) (count_4xx s1) (count_5xx s1 + 1)
                    (start_time s1) in
  (([("error", FStr "Internal Server Error");
     ("message", FStr "This endpoint always returns 500");
     ("timestamp", FTime now)], 500),
   with_stats app s2).

Definition always_404 (now : Z) (app : App) : (list (string * field) * Z) * App :=
  let s0 := stats app in
  let s1 := mkStats (total_requests s0 + 1) (count_2xx s0) (count_4xx s0) (count_5xx s0)
                    (start_time s0) in
  let s2 := mkStats (total_requests s1) (count_2xx s1) (count_4xx s1 + 1) (count_5xx s1)
                    (start_time s1) in
  (([("error", FStr "Not Found");
     ("message", FStr "This endpoint always returns 404");
     ("timestamp", FTime now)], 404),
   with_stats app s2).

(** [jsonify] without a status: 200. *)
Definition reset_stats (now : Z) (app : App) : (list (string * field) * Z) * App :=
  (([("status", FStr "reset");
     ("message", FStr "Statistics reset successfully")], 200),
   with_stats app (mkStats 0 0 0 0 now)).

End ErrorGenerator.

(** ** Observations and scenarios *)

(** The capacity requests among the calls of a run, in order: the
    requested capacity and the [HonorCooldown] flag. *)
Fixpoint capacity_requests (cs : list Call) : list (Z * bool) :=
  match cs with
  | [] => []
  | SetDesiredCapacity _ c h :: rest => (c, h) :: capacity_requests rest
  | _ :: rest => capacity_requests rest
  end.


(** An interpreter that turns into text every value it is handed during
    the run. *)
Definition renders_all (env : Env) : Prop :=
  forall t x, render env t x = None.

(** The line that both handlers print first. *)
Definition received (event : pyval) : text :=
  [Lit "Received event: "; Json event].

(** A datetime of the calendar. *)
Definition is_datetime (t : Z) : Prop :=
  N8nWorkflow.datetime_min <= t <= N8nWorkflow.datetime_max.

(** Seconds in microseconds. *)
Definition seconds (n : Z) : Z := n * 1000000.

(** An environment that replaces the answers of CloudWatch. *)
Definition with_put_metric_data (env : Env)
    (pm : nat -> string -> list MetricDatum -> outcome unit) : Env :=
  mkEnv (describe_auto_scaling_groups env) (describe_scaling_activities env)
        (set_desired_capacity env) pm (datetime_now env) (json_loads env)
        (render env).

(** An environment that replaces the interpreter's rendering. *)
Definition with_render (env : Env) (r : nat -> text -> option exn) : Env :=
  mkEnv (describe_auto_scaling_groups env) (describe_scaling_activities env)
        (set_desired_capacity env) (put_metric_data env) (datetime_now env)
        (json_loads env) r.

(** What [json.loads] raises on a string that does not start a JSON
    value. *)
Definition not_json : exn :=
  mkExn "JSONDecodeError" [Lit "Expecting value: line 1 column 1 (char 0)"].

(** An environment that answers every call the same way: the groups and
    the activities given, every write acknowledged, a clock that stands
    still, strings that are not JSON, every value rendered. *)
Definition fixed_env (groups : list ASG) (activities : list Activity) (clock : Z)
  : Env :=
  mkEnv (fun _ _ => Ok groups)
        (fun _ _ _ => Ok activities)
        (fun _ _ _ _ => Ok tt)
        (fun _ _ _ => Ok tt)
        (fun _ => clock)
        (fun _ => Raise not_json)
        (fun _ _ => None).

(** An environment in which every call to AWS fails. *)
Definition failing_env (e : exn) (clock : Z) : Env :=
  mkEnv (fun _ _ => Raise e) (fun _ _ _ => Raise e) (fun _ _ _ _ => Raise e)
        (fun _ _ _ => Raise e) (fun _ => clock) (fun _ => Raise not_json)
        (fun _ _ => None).

Definition production_asg (desired : Z) : ASG :=
  mkASG "production-asg" desired 2 10 [].

(** The test event at the end of autoscale_handler.py. *)
Definition test_event_fields : list (string * pyval) :=
  [("action", PStr "scale_up");
   ("alert_type", PStr "cpu");
   ("severity", PStr "critical");
   ("metric_value", PStr "92%");
   ("ai_confidence", PInt 95);
   ("ai_reasoning", PStr "Sustained CPU load indicates traffic growth")].

Definition test_event : pyval := PDict test_event_fields.


Definition throttled : exn := mkExn "ClientError" [Lit "Rate exceeded"].

(** Two runs leave the same world behind when they made the same calls and
    as many interactions; the printed lines may differ. *)
Definition same_world (s1 s2 : St) : Prop :=
  tick s1 = tick s2 /\ calls s1 = calls s2.

(** Two computations that cannot be told apart by their result and the
    world they leave. *)
Definition indistinguishable {A : Type} (m1 m2 : M A) : Prop :=
  forall s1 s2, same_world s1 s2 ->
    fst (m1 s1) = fst (m2 s2) /\ same_world (snd (m1 s1)) (snd (m2 s2)).

(** The metric data sent to CloudWatch among the calls of a run, in
    order. *)
Fixpoint metric_calls (cs : list Call) : list (string * list MetricDatum) :=
  match cs with
  | [] => []
  | PutMetricData ns data :: rest => (ns, data) :: metric_calls rest
  | _ :: rest => metric_calls rest
  end.

(** Whether an answer of [describe_instance_status] passes the health
    check: a first entry that is running with both checks ok. *)
Definition passes_health_check (answer : outcome (list N8nHealth.InstanceStatus)) : bool :=
  match answer with
  | Ok (status :: _) =>
      String.eqb (N8nHealth.InstanceState_Name status) "running"
      && String.eqb (N8nHealth.InstanceStatus_Status status) "ok"
      && String.eqb (N8nHealth.SystemStatus_Status status) "ok"
  | _ => false
  end.

(** Whether a value can stand on the left of [> 90]. *)
Definition is_number (v : pyval) : bool :=
  match v with
  | PInt _ | PBool _ | PFloat _ => true
  | _ => false
  end.

(** An EC2 client that answers by instance alone. *)
Definition stable_ec2 (status_of : list string -> outcome (list N8nHealth.InstanceStatus))
  : N8nHealth.Ec2 :=
  N8nHealth.mkEc2 (fun _ ids => status_of ids).

Definition healthy_status : N8nHealth.InstanceStatus :=
  N8nHealth.mkInstanceStatus "running" "ok" "ok".

Definition impaired_status : N8nHealth.InstanceStatus :=
  N8nHealth.mkInstanceStatus "running" "impaired" "ok".

(** An environment like [fixed_env] whose capacity changes are refused. *)
Definition refusing_env (groups : list ASG) (activities : list Activity) (clock : Z)
    (e : exn) : Env :=
  mkEnv (fun _ _ => Ok groups)
        (fun _ _ _ => Ok activities)
        (fun _ _ _ _ => Raise e)
        (fun _ _ _ => Ok tt)
        (fun _ => clock)
        (fun _ => Raise not_json)
        (fun _ _ => None).

(** *** An interpreter with limits *)

(** The largest magnitude of an int inside a value. *)
Fixpoint largest_int (v : pyval) : Z :=
  match v with
  | PInt z => Z.abs z
  | PList l =>
      (fix largest (l : list pyval) : Z :=
         match l with
         | [] => 0
         | x :: rest => Z.max (largest_int x) (largest rest)
         end) l
  | PDict d =>
      (fix largest (d : list (string * pyval)) : Z :=
         match d with
         | [] => 0
         | (_, x) :: rest => Z.max (largest_int x) (largest rest)
         end) d
  | _ => 0
  end.

(** How deep the lists and dicts of a value are nested. *)
Fixpoint depth (v : pyval) : nat :=
  match v with
  | PList l =>
      S ((fix deepest (l : list pyval) : nat :=
            match l with
            | [] => O
            | x :: rest => Nat.max (depth x) (deepest rest)
            end) l)
  | PDict d =>
      S ((fix deepest (d : list (string * pyval)) : nat :=
            match d with
            | [] => O
            | (_, x) :: rest => Nat.max (depth x) (deepest rest)
            end) d)
  | _ => O
  end.

(** [n] lists inside one another. *)
Fixpoint nested (n : nat) : pyval :=
  match n with
  | O => PList []
  | S k => PList [nested k]
  end.

Definition too_many_digits : exn :=
  mkExn "ValueError"
    [Lit "Exceeds the limit (4300 digits) for integer string conversion; use sys.set_int_max_str_digits() to increase the limit"].

Definition too_deep (doing : string) : exn :=
  mkExn "RecursionError" [Lit "maximum recursion depth exceeded while "; Lit doing].

(** An interpreter with the default limit of 4300 digits on the ints it
    turns into text and room on its stack for [room] levels of nesting:
    the first value of a text that is beyond a limit is refused. *)
Fixpoint limited_render (room : nat) (x : text) : option exn :=
  match x with
  | [] => None
  | Lit _ :: rest => limited_render room rest
  | Str v :: rest =>
      if 10 ^ 4300 <=? largest_int v then Some too_many_digits
      else if (room <? depth v)%nat then
        Some (too_deep "getting the repr of an object")
      else limited_render room rest
  | Json v :: rest =>
      if 10 ^ 4300 <=? largest_int v then Some too_many_digits
      else if (room <? depth v)%nat then Some (too_deep "encoding a JSON object")
      else limited_render room rest
  end.

(** *** The test server *)

(** The requests that the counters of the test server have classified. *)
Definition classified (s : ErrorGenerator.Stats) : Z :=
  ErrorGenerator.count_2xx s + ErrorGenerator.count_4xx s + ErrorGenerator.count_5xx s.

(** A [random] module that always draws the same float and the same
    index. *)
Definition fixed_chance (r : Q) (i : nat) : ErrorGenerator.Chance :=
  ErrorGenerator.mkChance (fun _ => r) (fun _ _ => i).

(** A [time.sleep] that waits for every delay. *)
Definition patient : ErrorGenerator.Sleep := fun _ => None.

(** A [time.sleep] whose timestamps are 64-bit counts of nanoseconds: a
    delay of 2^63 nanoseconds or more is refused. *)
Definition sleep_64 : ErrorGenerator.Sleep :=
  fun delay =>
    if Qle_bool (9223372036854775808 # 1000000000) delay then
      Some (mkExn "OverflowError" [Lit "timestamp too large to convert to C _PyTime_t"])
    else None.
(** * Properties *)

Ltac unfold_monad :=
  unfold printf, json_dumps in *;
  unfold bind, ret, raise, lift, try_except, print, fstring, aws, now in *.

(** Case analysis on the innermost scrutinee of the goal. *)
Ltac break_match :=
  match goal with
  | |- context [match ?x with _ => _ end] =>
      lazymatch x with
      | context [match _ with _ => _ end] => fail
      | _ => destruct x eqn:?
      end
  end.

(** A refusal of the interpreter contradicts [renders_all]. *)
Ltac rendered :=
  match goal with
  | Hr : renders_all ?env, H : render ?env _ _ = Some _ |- _ =>
      rewrite (Hr _ _) in H; discriminate H
  end.


Lemma bind_ok {A B : Type} (m : M A) (f : A -> M B) s a s' :
  m s = (Ok a, s') -> bind m f s = f a s'.
Proof. intros H. unfold bind. rewrite H. reflexivity. Qed.

Lemma bind_raise {A B : Type} (m : M A) (f : A -> M B) s e s' :
  m s = (Raise e, s') -> bind m f s = (Raise e, s').
Proof. intros H. unfold bind. rewrite H. reflexivity. Qed.

Lemma capacity_requests_app cs1 cs2 :
  capacity_requests (cs1 ++ cs2) = capacity_requests cs1 ++ capacity_requests cs2.
Proof.
  induction cs1 as [|c cs1 IH]; [reflexivity|].
  destruct c; cbn; rewrite IH; reflexivity.
Qed.

(** The capacity requests of a list of calls built by appending. *)
Ltac normalize_requests :=
  cbn [calls snd]; repeat rewrite capacity_requests_app; cbn [capacity_requests];
  repeat rewrite <- app_assoc; cbn [app]; repeat rewrite app_nil_r; try reflexivity.

(** The same, when the requests of the run are still to be found. *)
Ltac find_requests :=
  cbn [calls snd]; repeat rewrite capacity_requests_app; cbn [capacity_requests];
  repeat rewrite <- app_assoc; cbn [app]; reflexivity.

(** ** Texts that are rendered *)

Section Rendered.

Variable env : Env.
Hypothesis Hr : renders_all env.





End Rendered.

(** A body without ints and without values of the event is always
    encoded. *)
Lemma json_dumps_strings env body s :
  json_values body = [] -> json_dumps env body s = (Ok tt, s).
Proof. intros H. unfold json_dumps, fstring, bind. rewrite H. reflexivity. Qed.

(** ** Datetimes *)

(** A concrete datetime is within the calendar. *)
Ltac in_calendar :=
  unfold is_datetime, N8nWorkflow.datetime_min, N8nWorkflow.datetime_max, seconds; lia.

Lemma timedelta_seconds_in_range n :
  -999999999 <= n / 86400 <= 999999999 ->
  N8nWorkflow.timedelta_seconds n = Ok (seconds n).
Proof.
  intros H. unfold N8nWorkflow.timedelta_seconds. cbv zeta.
  replace ((n / 86400 <? -2147483648) || (2147483647 <? n / 86400)) with false
    by (symmetry; apply orb_false_iff; split; apply Z.ltb_ge; lia).
  replace ((n / 86400 <? -999999999) || (999999999 <? n / 86400)) with false
    by (symmetry; apply orb_false_iff; split; apply Z.ltb_ge; lia).
  reflexivity.
Qed.

Lemma datetime_add_in_range t delta :
  is_datetime (t + delta) -> N8nWorkflow.datetime_add t delta = Ok (t + delta).
Proof.
  intros [Hlo Hhi]. unfold N8nWorkflow.datetime_add.
  replace ((t + delta <? N8nWorkflow.datetime_min)
           || (N8nWorkflow.datetime_max <? t + delta)) with false
    by (symmetry; apply orb_false_iff; split; apply Z.ltb_ge; lia).
  reflexivity.
Qed.

(** The end of a cooldown that stays within the calendar. *)
Lemma cooldown_end_in_range cfg a :
  is_datetime (StartTime a) ->
  is_datetime (StartTime a + seconds (N8nWorkflow.COOLDOWN_PERIOD cfg)) ->
  N8nWorkflow.cooldown_end cfg a
  = Ok (StartTime a + seconds (N8nWorkflow.COOLDOWN_PERIOD cfg)).
Proof.
  intros Ha Hend. unfold N8nWorkflow.cooldown_end.
  rewrite timedelta_seconds_in_range.
  - apply datetime_add_in_range. exact Hend.
  - unfold is_datetime, N8nWorkflow.datetime_min, N8nWorkflow.datetime_max, seconds in *.
    Z.div_mod_to_equations. lia.
Qed.

(** Truncating the nearest multiple of [1/K] of [n / 10^6] gives the whole
    part of the quotient, as soon as two steps of [1/K] are shorter than a
    microsecond. *)
Lemma truncated_rounding K n :
  500000 < K -> 0 <= n ->
  N8nWorkflow.round_half_even (n * K) 1000000 / K = n / 1000000.
Proof.
  intros HK Hn.
  set (a := n / 1000000). set (b := n mod 1000000).
  assert (Hab : n = 1000000 * a + b) by (apply Z.div_mod; lia).
  assert (Hb : 0 <= b < 1000000) by (apply Z.mod_pos_bound; lia).
  assert (Ha : 0 <= a) by (apply Z.div_pos; lia).
  set (c := (b * K) / 1000000). set (r := (b * K) mod 1000000).
  assert (Hcr : b * K = 1000000 * c + r) by (apply Z.div_mod; lia).
  assert (Hr : 0 <= r < 1000000) by (apply Z.mod_pos_bound; lia).
  assert (Hc : 0 <= c) by (apply Z.div_pos; nia).
  assert (HcK : c <= K - 1) by nia.
  assert (Hq : (n * K) / 1000000 = a * K + c).
  { symmetry. apply (Z.div_unique (n * K) 1000000 (a * K + c) r); [lia|nia]. }
  assert (Hm : (n * K) mod 1000000 = r).
  { symmetry. apply (Z.mod_unique (n * K) 1000000 (a * K + c) r); [lia|nia]. }
  unfold N8nWorkflow.round_half_even. cbv zeta. rewrite Hq, Hm.
  assert (Hup : 1000000 <= 2 * r -> c <= K - 2) by (intros H; nia).
  symmetry.
  destruct (2 * r <? 1000000) eqn:H1.
  - apply (Z.div_unique _ K a c); lia.
  - apply Z.ltb_ge in H1. specialize (Hup H1).
    destruct (1000000 <? 2 * r);
      [|destruct (Z.even (a * K + c))];
      first [apply (Z.div_unique _ K a (c + 1)); lia | apply (Z.div_unique _ K a c); lia].
Qed.

Lemma int_of_true_division_small n :
  0 < n < 2 ^ 53 ->
  N8nWorkflow.int_of_true_division n 1000000 = n / 1000000.
Proof.
  intros [Hpos Hlt].
  assert (Hlog : Z.log2 n < 53) by (apply Z.log2_lt_pow2; lia).
  unfold N8nWorkflow.int_of_true_division.
  replace (Z.log2 1000000) with 19 by reflexivity.
  set (l0 := Z.log2 n - 19).
  cbv zeta.
  set (l := if n * 2 ^ Z.max 0 (- l0) <? 1000000 * 2 ^ Z.max 0 l0 then l0 - 1 else l0).
  assert (Hl : l - 52 <= -19) by (subst l l0; destruct (_ <? _); lia).
  replace (0 <=? l - 52) with false by (symmetry; apply Z.leb_gt; lia).
  rewrite (Z.max_l 0 (l - 52)) by lia.
  rewrite (Z.max_r 0 (- (l - 52))) by lia.
  rewrite Z.pow_0_r, Z.mul_1_r.
  apply truncated_rounding; [|lia].
  assert (2 ^ 19 <= 2 ^ (- (l - 52))) by (apply Z.pow_le_mono_r; lia).
  assert (2 ^ 19 = 524288) by reflexivity. lia.
Qed.

(** Below 2^53 microseconds the float of [total_seconds] is truncated to
    the whole seconds of the timedelta. *)
Lemma int_total_seconds_small us :
  Z.abs us < 2 ^ 53 -> N8nWorkflow.int_total_seconds us = Z.quot us 1000000.
Proof.
  intros H. unfold N8nWorkflow.int_total_seconds.
  destruct (Z.eqb_spec us 0) as [->|Hne]; [reflexivity|].
  destruct (Z.lt_total us 0) as [Hneg|[H0|Hpos]]; [|contradiction|].
  - rewrite Z.sgn_neg by lia. rewrite Z.abs_neq by lia.
    rewrite int_of_true_division_small by lia.
    rewrite <- Z.quot_div_nonneg by lia.
    rewrite Z.quot_opp_l by lia. lia.
  - rewrite Z.sgn_pos by lia. rewrite Z.abs_eq by lia.
    rewrite int_of_true_division_small by lia.
    rewrite Z.quot_div_nonneg by lia. lia.
Qed.

(** Whole seconds of a timedelta are recovered by the truncation. *)
Lemma int_total_seconds_whole k :
  Z.abs k < 2 ^ 33 -> N8nWorkflow.int_total_seconds (seconds k) = k.
Proof.
  intros H. rewrite int_total_seconds_small.
  - unfold seconds. apply Z.quot_mul. lia.
  - unfold seconds. assert (2 ^ 33 = 8589934592) by reflexivity.
    assert (2 ^ 53 = 9007199254740992) by reflexivity. lia.
Qed.

(** ** The cooldown tracker of the n8n handler *)

Section CooldownTracker.

Import N8nWorkflow.

Variable cfg : Config.
Variable env : Env.

Lemma is_in_cooldown_last asg_name st a rest finish :
  describe_scaling_activities env (tick st) asg_name 1 = Ok (a :: rest) ->
  cooldown_end cfg a = Ok finish ->
  is_in_cooldown cfg env asg_name st =
    (Ok (datetime_now env (S (tick st)) <? finish),
     mkSt (S (S (tick st))) (calls st ++ [DescribeScalingActivities asg_name 1])
          (log st)).
Proof.
  intros H Hend. unfold is_in_cooldown. unfold_monad. rewrite H, Hend. reflexivity.
Qed.

(** When the end of the cooldown is not a datetime, the exception of the
    addition is caught before the clock is read. *)
Lemma is_in_cooldown_overflow asg_name st a rest e :
  describe_scaling_activities env (tick st) asg_name 1 = Ok (a :: rest) ->
  cooldown_end cfg a = Raise e ->
  is_in_cooldown cfg env asg_name st =
    (Ok false,
     mkSt (S (tick st)) (calls st ++ [DescribeScalingActivities asg_name 1])
          (log st ++ [Lit "Error checking cooldown: " :: exn_msg e])).
Proof.
  intros H Hend. unfold is_in_cooldown. unfold_monad. rewrite H, Hend. reflexivity.
Qed.

Lemma is_in_cooldown_none asg_name st :
  describe_scaling_activities env (tick st) asg_name 1 = Ok [] ->
  is_in_cooldown cfg env asg_name st =
    (Ok false,
     mkSt (S (tick st)) (calls st ++ [DescribeScalingActivities asg_name 1]) (log st)).
Proof.
  intros H. unfold is_in_cooldown. unfold_monad. rewrite H. reflexivity.
Qed.

Lemma is_in_cooldown_raise asg_name st e :
  describe_scaling_activities env (tick st) asg_name 1 = Raise e ->
  is_in_cooldown cfg env asg_name st =
    (Ok false,
     mkSt (S (tick st)) (calls st ++ [DescribeScalingActivities asg_name 1])
          (log st ++ [Lit "Error checking cooldown: " :: exn_msg e])).
Proof.
  intros H. unfold is_in_cooldown. unfold_monad. rewrite H. reflexivity.
Qed.

Lemma get_cooldown_remaining_last asg_name st a rest finish :
  describe_scaling_activities env (tick st) asg_name 1 = Ok (a :: rest) ->
  cooldown_end cfg a = Ok finish ->
  get_cooldown_remaining cfg env asg_name st =
    (Ok (Z.max 0 (int_total_seconds (finish - datetime_now env (S (tick st))))),
     mkSt (S (S (tick st))) (calls st ++ [DescribeScalingActivities asg_name 1])
          (log st)).
Proof.
  intros H Hend. unfold get_cooldown_remaining. unfold_monad. rewrite H, Hend.
  reflexivity.
Qed.

Lemma get_cooldown_remaining_overflow asg_name st a rest e :
  describe_scaling_activities env (tick st) asg_name 1 = Ok (a :: rest) ->
  cooldown_end cfg a = Raise e ->
  get_cooldown_remaining cfg env asg_name st =
    (Ok 0,
     mkSt (S (tick st)) (calls st ++ [DescribeScalingActivities asg_name 1])
          (log st ++ [Lit "Error getting cooldown remaining: " :: exn_msg e])).
Proof.
  intros H Hend. unfold get_cooldown_remaining. unfold_monad. rewrite H, Hend.
  reflexivity.
Qed.

Lemma get_cooldown_remaining_none asg_name st :
  describe_scaling_activities env (tick st) asg_name 1 = Ok [] ->
  get_cooldown_remaining cfg env asg_name st =
    (Ok 0,
     mkSt (S (tick st)) (calls st ++ [DescribeScalingActivities asg_name 1]) (log st)).
Proof.
  intros H. unfold get_cooldown_remaining. unfold_monad. rewrite H. reflexivity.
Qed.

Lemma get_cooldown_remaining_raise asg_name st e :
  describe_scaling_activities env (tick st) asg_name 1 = Raise e ->
  get_cooldown_remaining cfg env asg_name st =
    (Ok 0,
     mkSt (S (tick st)) (calls st ++ [DescribeScalingActivities asg_name 1])
          (log st ++ [Lit "Error getting cooldown remaining: " :: exn_msg e])).
Proof.
  intros H. unfold get_cooldown_remaining. unfold_monad. rewrite H. reflexivity.
Qed.

(** The tracker never raises, and asks AWS once. *)
Lemma is_in_cooldown_run asg_name st :
  exists b t l,
    is_in_cooldown cfg env asg_name st =
      (Ok b, mkSt t (calls st ++ [DescribeScalingActivities asg_name 1]) l).
Proof.
  unfold is_in_cooldown. unfold_monad. cbn.
  repeat (break_match; cbn); do 3 eexists; reflexivity.
Qed.


End CooldownTracker.

(** ** The cooldown tracker: main results *)

(** C3. With the last activity started at [T] and a clock reading [clock],
    as long as [T + COOLDOWN_PERIOD] is a datetime, [is_in_cooldown] answers
    [clock < T + COOLDOWN_PERIOD] and [get_cooldown_remaining] answers
    [max(0, int((T + COOLDOWN_PERIOD - clock).total_seconds()))]: the whole
    seconds left, rounded down, as long as these are fewer than 2^53
    microseconds, where the float of [total_seconds] is exact to the
    microsecond. With a cooldown of 300 seconds, at [T + 299] the request
    is suppressed with 1 second remaining, at [T + 300] it is not. *)
Theorem cooldown_boundary :
  forall (cfg : N8nWorkflow.Config) (env : Env) (asg_name : string) (st : St)
         (T : Z) (rest : list Activity),
    describe_scaling_activities env (tick st) asg_name 1 = Ok (mkActivity T :: rest) ->
    let clock := datetime_now env (S (tick st)) in
    let cooldown := N8nWorkflow.COOLDOWN_PERIOD cfg in
    let finish := T + seconds cooldown in
    is_datetime T ->
    is_datetime finish ->
    let suppressed := fst (N8nWorkflow.is_in_cooldown cfg env asg_name st) in
    let remaining := fst (N8nWorkflow.get_cooldown_remaining cfg env asg_name st) in
    suppressed = Ok (clock <? finish)
    /\ remaining = Ok (Z.max 0 (N8nWorkflow.int_total_seconds (finish - clock)))
    /\ (Z.abs (finish - clock) < 2 ^ 53 ->
        remaining = Ok (Z.max 0 ((finish - clock) / 1000000)))
    /\ (forall k, clock = T + seconds k -> Z.abs (cooldown - k) < 2 ^ 33 ->
          remaining = Ok (Z.max 0 (cooldown - k)))
    /\ (cooldown = 300 -> clock = T + seconds 299 ->
          suppressed = Ok true /\ remaining = Ok 1)
    /\ (cooldown = 300 -> clock = T + seconds 300 ->
          suppressed = Ok false /\ remaining = Ok 0).
Proof.
  intros cfg env asg_name st T rest H clock cooldown finish HT Hfinish
         suppressed remaining.
  assert (Hend : N8nWorkflow.cooldown_end cfg (mkActivity T) = Ok finish)
    by (apply (cooldown_end_in_range cfg (mkActivity T)); assumption).
  assert (Hs : suppressed = Ok (clock <? finish)).
  { subst suppressed.
    rewrite (is_in_cooldown_last cfg env asg_name st _ _ _ H Hend). reflexivity. }
  assert (Hr : remaining =
               Ok (Z.max 0 (N8nWorkflow.int_total_seconds (finish - clock)))).
  { subst remaining.
    rewrite (get_cooldown_remaining_last cfg env asg_name st _ _ _ H Hend). reflexivity. }
  assert (Hfloor : Z.abs (finish - clock) < 2 ^ 53 ->
                   remaining = Ok (Z.max 0 ((finish - clock) / 1000000))).
  { intros Hsmall. rewrite Hr, (int_total_seconds_small _ Hsmall). f_equal.
    destruct (Z.le_gt_cases 0 (finish - clock)) as [Hpos|Hneg].
    - rewrite Z.quot_div_nonneg by lia. reflexivity.
    - assert ((finish - clock) ÷ 1000000 <= 0) by (apply Z.quot_le_upper_bound; lia).
      assert ((finish - clock) / 1000000 < 0) by (apply Z.div_lt_upper_bound; lia).
      lia. }
  assert (Hk : forall k, clock = T + seconds k -> Z.abs (cooldown - k) < 2 ^ 33 ->
                         remaining = Ok (Z.max 0 (cooldown - k))).
  { intros k Hnow Hsmall. rewrite Hr, Hnow. subst finish.
    replace (T + seconds cooldown - (T + seconds k)) with (seconds (cooldown - k))
      by (unfold seconds; lia).
    rewrite (int_total_seconds_whole _ Hsmall). reflexivity. }
  split; [exact Hs|]. split; [exact Hr|]. split; [exact Hfloor|]. split; [exact Hk|].
  split; intros Hcd Hnow.
  - split.
    + rewrite Hs, Hnow. subst finish. rewrite Hcd. f_equal. apply Z.ltb_lt.
      unfold seconds. lia.
    + rewrite (Hk 299 Hnow) by (rewrite Hcd; reflexivity). rewrite Hcd. reflexivity.
  - split.
    + rewrite Hs, Hnow. subst finish. rewrite Hcd. f_equal. apply Z.ltb_ge. lia.
    + rewrite (Hk 300 Hnow) by (rewrite Hcd; reflexivity). rewrite Hcd. reflexivity.
Qed.

(** At 299 seconds after an activity started at the epoch. *)
Lemma cooldown_boundary_witness :
  (is_datetime 0 /\ is_datetime (0 + seconds 300))
  /\ fst (N8nWorkflow.is_in_cooldown N8nWorkflow.default_config
            (fixed_env [] [mkActivity 0] 299000000) "production-asg" st0) = Ok true
  /\ fst (N8nWorkflow.get_cooldown_remaining N8nWorkflow.default_config
            (fixed_env [] [mkActivity 0] 299000000) "production-asg" st0) = Ok 1.
Proof.
  assert (H0 : is_datetime 0) by in_calendar.
  assert (H300 : is_datetime (0 + seconds 300)) by in_calendar.
  split; [split; assumption|].
  apply (cooldown_boundary N8nWorkflow.default_config
           (fixed_env [] [mkActivity 0] 299000000) "production-asg" st0 0 []
           eq_refl H0 H300); reflexivity.
Defined.

(** C7. When AWS reports no scaling activity, the tracker answers "not in
    cooldown" and 0 seconds remaining; when the lookup raises, it answers
    the same and raises nothing. *)
Theorem unknown_history_is_not_suppressed :
  forall (cfg : N8nWorkflow.Config) (env : Env) (asg_name : string) (st : St),
    (describe_scaling_activities env (tick st) asg_name 1 = Ok []
     \/ exists e, describe_scaling_activities env (tick st) asg_name 1 = Raise e) ->
    fst (N8nWorkflow.is_in_cooldown cfg env asg_name st) = Ok false
    /\ fst (N8nWorkflow.get_cooldown_remaining cfg env asg_name st) = Ok 0.
Proof.
  intros cfg env asg_name st [H|[e H]].
  - rewrite (is_in_cooldown_none cfg env asg_name st H),
            (get_cooldown_remaining_none cfg env asg_name st H).
    split; reflexivity.
  - rewrite (is_in_cooldown_raise cfg env asg_name st e H),
            (get_cooldown_remaining_raise cfg env asg_name st e H).
    split; reflexivity.
Qed.

(** The lookup is throttled. *)
Lemma unknown_history_is_not_suppressed_witness :
  fst (N8nWorkflow.is_in_cooldown N8nWorkflow.default_config
         (failing_env throttled 5) "production-asg" st0) = Ok false
  /\ fst (N8nWorkflow.get_cooldown_remaining N8nWorkflow.default_config
            (failing_env throttled 5) "production-asg" st0) = Ok 0.
Proof.
  apply (unknown_history_is_not_suppressed N8nWorkflow.default_config
           (failing_env throttled 5) "production-asg" st0).
  right. exists throttled. reflexivity.
Defined.

(** ** The cooldown check at the head of the n8n handler *)

Section CooldownCheck.

Import N8nWorkflow.

Variable cfg : Config.
Variable env : Env.

(** [parse_event] touches nothing. *)
Lemma parse_event_state event st :
  parse_event env event st = (fst (parse_event env event st0), st).
Proof.
  unfold parse_event, has_body, get_body. unfold_monad.
  destruct event; cbn; try reflexivity.
  - destruct (str_contains "body" s); reflexivity.
  - destruct (existsb _ l); reflexivity.
  - destruct (dict_lookup d "body") as [b|]; cbn; [|reflexivity].
    destruct b; reflexivity.
Qed.

Lemma py_get_dict d k default st :
  py_get (PDict d) k default st = (Ok (dict_get d k default), st).
Proof. reflexivity. Qed.



Hypothesis Hr : renders_all env.




End CooldownCheck.




(** ** The capacity planners *)

Section Planner.

Variable env : Env.

Lemma scale_up_increment_state cfg severity ai_confidence st :
  snd (AiIncident.scale_up_increment cfg severity ai_confidence st) = st.
Proof.
  unfold AiIncident.scale_up_increment, py_gt_int. unfold_monad.
  destruct (py_eq_str severity "critical"); [reflexivity|].
  destruct ai_confidence; reflexivity.
Qed.


(** What [scale_up] can ask of AWS: nothing, or the capacity it plans. *)
Lemma scale_up_requests_any cfg asg_info alert_type severity ai_confidence st :
  exists reqs,
    capacity_requests
      (calls (snd (AiIncident.scale_up cfg env asg_info alert_type severity
                     ai_confidence st))) = capacity_requests (calls st) ++ reqs
    /\ (reqs = []
        \/ exists increment,
             fst (AiIncident.scale_up_increment cfg severity ai_confidence st)
             = Ok increment
             /\ let new_capacity :=
                  Z.min (AiIncident.desired_capacity asg_info + increment)
                        (AiIncident.MAX_CAPACITY cfg) in
                (new_capacity =? AiIncident.desired_capacity asg_info) = false
                /\ reqs = [(new_capacity, false)]).
Proof.
  unfold AiIncident.scale_up. unfold bind at 1.
  pose proof (scale_up_increment_state cfg severity ai_confidence st) as Hst.
  destruct (AiIncident.scale_up_increment cfg severity ai_confidence st) as [[inc|e] s'].
  - cbn in Hst. subst s'. cbn [fst]. cbv zeta.
    destruct (_ =? _) eqn:Heq.
    + exists []. split; [|left; reflexivity].
      unfold_monad. cbn. break_match; cbn; rewrite app_nil_r; reflexivity.
    + unfold_monad. cbn.
      repeat (break_match; cbn);
        first [ solve [exists []; split; [normalize_requests|left; reflexivity]]
              | solve [eexists; split; [find_requests|];
                       right; eexists; split; [reflexivity|];
                       split; [exact Heq|reflexivity]] ].
  - cbn in Hst. subst s'. exists []. cbn. rewrite app_nil_r. split; [reflexivity|].
    left. reflexivity.
Qed.

(** What [scale_down] can ask of AWS. *)
Lemma scale_down_requests_any cfg asg_info st :
  exists reqs,
    capacity_requests (calls (snd (AiIncident.scale_down cfg env asg_info st)))
    = capacity_requests (calls st) ++ reqs
    /\ (reqs = []
        \/ let new_capacity :=
             Z.max (AiIncident.desired_capacity asg_info
                    - AiIncident.SCALE_DOWN_INCREMENT cfg)
                   (AiIncident.MIN_CAPACITY cfg) in
           (new_capacity =? AiIncident.desired_capacity asg_info) = false
           /\ reqs = [(new_capacity, true)]).
Proof.
  unfold AiIncident.scale_down. cbv zeta.
  destruct (_ =? _) eqn:Heq.
  - exists []. split; [|left; reflexivity].
    unfold_monad. cbn. break_match; cbn; rewrite app_nil_r; reflexivity.
  - unfold_monad. cbn.
    repeat (break_match; cbn);
      first [ solve [exists []; split; [normalize_requests|left; reflexivity]]
            | solve [eexists; split; [find_requests|];
                     right; split; [first [exact Heq|reflexivity]|reflexivity]] ].
Qed.

Lemma send_scaling_metric_requests asg_name alert_type action change st :
  capacity_requests
    (calls (snd (N8nWorkflow.send_scaling_metric env asg_name alert_type action
                   change st))) = capacity_requests (calls st).
Proof.
  unfold N8nWorkflow.send_scaling_metric. unfold_monad. cbn.
  break_match; normalize_requests.
Qed.

Lemma send_scaling_metric_ok asg_name alert_type action change st :
  fst (N8nWorkflow.send_scaling_metric env asg_name alert_type action change st)
  = Ok tt.
Proof.
  unfold N8nWorkflow.send_scaling_metric. unfold_monad. cbn.
  break_match; reflexivity.
Qed.

(** What [handle_scale_up] can ask of AWS. *)
Lemma handle_scale_up_requests_any cfg asg_name current_capacity alert_type metric_value
      ai_confidence st :
  exists reqs,
    capacity_requests
      (calls (snd (N8nWorkflow.handle_scale_up cfg env asg_name current_capacity
                     alert_type metric_value ai_confidence st)))
    = capacity_requests (calls st) ++ reqs
    /\ (reqs = []
        \/ let new_capacity :=
             Z.min (current_capacity + N8nWorkflow.SCALE_UP_AMOUNT cfg)
                   (N8nWorkflow.MAX_INSTANCES cfg) in
           (new_capacity <=? current_capacity) = false
           /\ reqs = [(new_capacity, false)]).
Proof.
  unfold N8nWorkflow.handle_scale_up. cbv zeta.
  destruct (_ <=? _) eqn:Hle.
  - exists []. split; [|left; reflexivity].
    unfold N8nWorkflow.send_scaling_metric, N8nWorkflow.create_response.
    unfold_monad. cbn.
    repeat (break_match; cbn); normalize_requests.
  - unfold N8nWorkflow.send_scaling_metric, N8nWorkflow.create_response.
    unfold_monad. cbn.
    repeat (break_match; cbn);
      first [ solve [exists []; split; [normalize_requests|left; reflexivity]]
            | solve [eexists; split; [find_requests|];
                     right; split; [first [exact Hle|reflexivity]|reflexivity]] ].
Qed.

(** What [handle_scale_down] can ask of AWS. *)
Lemma handle_scale_down_requests_any cfg asg_name current_capacity alert_type st :
  exists reqs,
    capacity_requests
      (calls (snd (N8nWorkflow.handle_scale_down cfg env asg_name current_capacity
                     alert_type st)))
    = capacity_requests (calls st) ++ reqs
    /\ (reqs = []
        \/ let new_capacity :=
             Z.max (current_capacity - 1) (N8nWorkflow.MIN_INSTANCES cfg) in
           (new_capacity >=? current_capacity) = false
           /\ reqs = [(new_capacity, true)]).
Proof.
  unfold N8nWorkflow.handle_scale_down. cbv zeta.
  destruct (_ >=? _) eqn:Hge.
  - exists []. split; [|left; reflexivity].
    unfold N8nWorkflow.create_response.
    unfold_monad. cbn.
    repeat (break_match; cbn); normalize_requests.
  - unfold N8nWorkflow.send_scaling_metric, N8nWorkflow.create_response.
    unfold_monad. cbn.
    repeat (break_match; cbn);
      first [ solve [exists []; split; [normalize_requests|left; reflexivity]]
            | solve [eexists; split; [find_requests|];
                     right; split; [first [exact Hge|reflexivity]|reflexivity]] ].
Qed.

Hypothesis Hr : renders_all env.





End Planner.

(** ** The handlers as a whole *)


Section Handlers.

Variable env : Env.
Hypothesis Hr : renders_all env.




End Handlers.








(** What a run of a planner leaves to say about its capacity requests:
    none, with no change reported, or the one request found. *)
Ltac flagged_requests :=
  first
    [ solve [ exists []; split; [normalize_requests|]; split; [constructor|];
              let H := fresh in
              intros ? H; first [discriminate H | inversion H; cbn; discriminate] ]
    | solve [ eexists; split; [find_requests|]; split; [repeat constructor|];
              intros ? _ _; eexists; reflexivity ] ].

(** C9. Every capacity request made by a scale-up ([scale_up],
    [handle_scale_up]) carries HonorCooldown = False, whatever the severity
    and the confidence, and every one made by a scale-down ([scale_down],
    [handle_scale_down]) carries HonorCooldown = True; a scale-up or
    scale-down that reports a change has made exactly one such request. *)
Theorem honor_cooldown_flags :
  forall (cfg : AiIncident.Config) (cfg' : N8nWorkflow.Config) (env : Env)
         (asg_info : AiIncident.AsgInfo) (alert_type severity ai_confidence : pyval)
         (asg_name : string) (current_capacity : Z) (metric_value : pyval) (st : St),
    let up := AiIncident.scale_up cfg env asg_info alert_type severity ai_confidence st in
    let down := AiIncident.scale_down cfg env asg_info st in
    let up' := N8nWorkflow.handle_scale_up cfg' env asg_name current_capacity
                 alert_type metric_value ai_confidence st in
    let down' := N8nWorkflow.handle_scale_down cfg' env asg_name current_capacity
                   alert_type st in
    (exists reqs,
        capacity_requests (calls (snd up)) = capacity_requests (calls st) ++ reqs
        /\ Forall (fun q => snd q = false) reqs
        /\ (forall r, fst up = Ok r ->
              dict_lookup r "action" = Some (FStr "scaled_up") ->
              exists c, reqs = [(c, false)]))
    /\ (exists reqs,
          capacity_requests (calls (snd down)) = capacity_requests (calls st) ++ reqs
          /\ Forall (fun q => snd q = true) reqs
          /\ (forall r, fst down = Ok r ->
                dict_lookup r "action" = Some (FStr "scaled_down") ->
                exists c, reqs = [(c, true)]))
    /\ (exists reqs,
          capacity_requests (calls (snd up')) = capacity_requests (calls st) ++ reqs
          /\ Forall (fun q => snd q = false) reqs
          /\ (forall r, fst up' = Ok r ->
                dict_lookup (N8nWorkflow.body r) "success" = Some (FBool true) ->
                exists c, reqs = [(c, false)]))
    /\ (exists reqs,
          capacity_requests (calls (snd down')) = capacity_requests (calls st) ++ reqs
          /\ Forall (fun q => snd q = true) reqs
          /\ (forall r, fst down' = Ok r ->
                dict_lookup (N8nWorkflow.body r) "success" = Some (FBool true) ->
                exists c, reqs = [(c, true)])).
Proof.
  intros cfg cfg' env asg_info alert_type severity ai_confidence asg_name
         current_capacity metric_value st up down up' down'.
  split; [|split; [|split]].
  - subst up. clear down up' down'.
    destruct (AiIncident.scale_up _ _ _ _ _ _ _) as [o s'] eqn:Hrun.
    cbn [fst snd]. revert Hrun.
    unfold AiIncident.scale_up, AiIncident.scale_up_increment, py_gt_int.
    unfold_monad. cbn.
    repeat (break_match; cbn); intros Hrun; inversion Hrun; subst;
      flagged_requests.
  - subst down. clear up up' down'.
    destruct (AiIncident.scale_down _ _ _ _) as [o s'] eqn:Hrun.
    cbn [fst snd]. revert Hrun.
    unfold AiIncident.scale_down. unfold_monad. cbn.
    repeat (break_match; cbn); intros Hrun; inversion Hrun; subst;
      flagged_requests.
  - subst up'. clear up down down'.
    destruct (N8nWorkflow.handle_scale_up _ _ _ _ _ _ _ _) as [o s'] eqn:Hrun.
    cbn [fst snd]. revert Hrun.
    unfold N8nWorkflow.handle_scale_up, N8nWorkflow.send_scaling_metric,
      N8nWorkflow.create_response.
    unfold_monad. cbn.
    repeat (break_match; cbn); intros Hrun; inversion Hrun; subst;
      flagged_requests.
  - subst down'. clear up down up'.
    destruct (N8nWorkflow.handle_scale_down _ _ _ _ _ _) as [o s'] eqn:Hrun.
    cbn [fst snd]. revert Hrun.
    unfold N8nWorkflow.handle_scale_down, N8nWorkflow.send_scaling_metric,
      N8nWorkflow.create_response.
    unfold_monad. cbn.
    repeat (break_match; cbn); intros Hrun; inversion Hrun; subst;
      flagged_requests.
Qed.

(** A warning with 10 % confidence, scaled up from 4 instances. *)
Lemma honor_cooldown_flags_witness :
  exists c,
    capacity_requests
      (calls (snd (AiIncident.scale_up AiIncident.default_config (fixed_env [] [] 0)
                     (AiIncident.mkAsgInfo "production-asg" 4 2 10 0 [] [])
                     (PStr "cpu") (PStr "warning") (PInt 10) st0))) = [(c, false)].
Proof.
  destruct (honor_cooldown_flags AiIncident.default_config N8nWorkflow.default_config
              (fixed_env [] [] 0) (AiIncident.mkAsgInfo "production-asg" 4 2 10 0 [] [])
              (PStr "cpu") (PStr "warning") (PInt 10) "production-asg" 4 (PInt 0) st0)
    as [[reqs [Hreq [_ Hex]]] _].
  destruct (Hex _ eq_refl eq_refl) as [c Hc].
  exists c. rewrite Hreq, Hc. reflexivity.
Defined.

(** ** The handlers: main results *)





(** *** Runs that differ only in what CloudWatch answers *)

Section Indistinguishable.

Lemma same_world_refl s : same_world s s.
Proof. split; reflexivity. Qed.

Lemma indist_ret {A : Type} (a : A) : indistinguishable (ret a) (ret a).
Proof. intros s1 s2 H. split; [reflexivity|exact H]. Qed.

Lemma indist_raise {A : Type} (e : exn) : indistinguishable (@raise A e) (raise e).
Proof. intros s1 s2 H. split; [reflexivity|exact H]. Qed.

Lemma indist_lift {A : Type} (o : outcome A) : indistinguishable (lift o) (lift o).
Proof. intros s1 s2 H. split; [reflexivity|exact H]. Qed.

Lemma indist_print t1 t2 : indistinguishable (print t1) (print t2).
Proof. intros s1 s2 [Ht Hc]. split; [reflexivity|]. split; cbn; assumption. Qed.

(** The interpreter is asked the same at the same moment. *)
Lemma indist_fstring env1 env2 t :
  render env1 = render env2 ->
  indistinguishable (fstring env1 t) (fstring env2 t).
Proof.
  intros Henv s1 s2 [Ht Hc]. unfold fstring. rewrite Henv, Ht.
  destruct (holds_values t); [destruct (render env2 (tick s2) t)|];
    (split; [reflexivity|split; assumption]).
Qed.

Lemma indist_aws {A : Type} (c : Call) (answer : nat -> outcome A) :
  indistinguishable (aws c answer) (aws c answer).
Proof.
  intros s1 s2 [Ht Hc]. unfold aws. cbn. rewrite Ht, Hc.
  split; [reflexivity|]. split; reflexivity.
Qed.

Lemma indist_now env1 env2 :
  datetime_now env1 = datetime_now env2 ->
  indistinguishable (now env1) (now env2).
Proof.
  intros Henv s1 s2 [Ht Hc]. unfold now. cbn. rewrite Henv, Ht.
  split; [reflexivity|]. split; cbn; congruence.
Qed.

Lemma indist_bind {A B : Type} (m1 m2 : M A) (f1 f2 : A -> M B) :
  indistinguishable m1 m2 ->
  (forall a, indistinguishable (f1 a) (f2 a)) ->
  indistinguishable (bind m1 f1) (bind m2 f2).
Proof.
  intros Hm Hf s1 s2 Hs. unfold bind.
  destruct (Hm s1 s2 Hs) as [Hfst Hsnd].
  destruct (m1 s1) as [[a1|e1] s1'], (m2 s2) as [[a2|e2] s2']; cbn in *;
    try discriminate.
  - inversion Hfst; subst. apply Hf. exact Hsnd.
  - inversion Hfst; subst. split; [reflexivity|exact Hsnd].
Qed.

Lemma indist_try_except {A : Type} (m1 m2 : M A) (h1 h2 : exn -> M A) :
  indistinguishable m1 m2 ->
  (forall e, indistinguishable (h1 e) (h2 e)) ->
  indistinguishable (try_except m1 h1) (try_except m2 h2).
Proof.
  intros Hm Hh s1 s2 Hs. unfold try_except.
  destruct (Hm s1 s2 Hs) as [Hfst Hsnd].
  destruct (m1 s1) as [[a1|e1] s1'], (m2 s2) as [[a2|e2] s2']; cbn in *;
    try discriminate.
  - split; [exact Hfst|exact Hsnd].
  - inversion Hfst; subst. apply Hh. exact Hsnd.
Qed.

Variable env : Env.
Variable pm : nat -> string -> list MetricDatum -> outcome unit.

(** [log_scaling_event] returns and leaves the same world whatever
    CloudWatch answers. *)
Lemma indist_log_scaling_event cfg action alert_type result :
  indistinguishable
    (AiIncident.log_scaling_event cfg (with_put_metric_data env pm) action alert_type result)
    (AiIncident.log_scaling_event cfg env action alert_type result).
Proof.
  intros s1 s2 [Ht Hc].
  unfold AiIncident.log_scaling_event. unfold_monad. cbn. rewrite Ht, Hc.
  repeat break_match; cbn;
    repeat match goal with u : unit |- _ => destruct u end;
    split; try reflexivity; split; reflexivity.
Qed.

(** So does [send_scaling_metric]. *)
Lemma indist_send_scaling_metric asg_name alert_type action change :
  indistinguishable
    (N8nWorkflow.send_scaling_metric (with_put_metric_data env pm) asg_name alert_type
       action change)
    (N8nWorkflow.send_scaling_metric env asg_name alert_type action change).
Proof.
  intros s1 s2 [Ht Hc].
  unfold N8nWorkflow.send_scaling_metric. unfold_monad. cbn. rewrite Ht, Hc.
  repeat break_match; cbn;
    repeat match goal with u : unit |- _ => destruct u end;
    split; try reflexivity; split; reflexivity.
Qed.

Ltac indist_step :=
  first
    [ apply indist_ret | apply indist_raise | apply indist_print | apply indist_lift
    | apply indist_fstring; reflexivity
    | apply indist_now; reflexivity | apply indist_aws
    | apply indist_log_scaling_event | apply indist_send_scaling_metric
    | apply indist_bind; [|intros ?]
    | apply indist_try_except; [|intros ?]
    | match goal with
      | |- indistinguishable (match ?x with _ => _ end) _ => destruct x
      end
    | progress cbn beta iota zeta ].

Lemma indist_ai_lambda_handler cfg event :
  indistinguishable
    (AiIncident.lambda_handler cfg (with_put_metric_data env pm) event)
    (AiIncident.lambda_handler cfg env event).
Proof.
  unfold AiIncident.lambda_handler, AiIncident.lambda_handler_try,
    AiIncident.get_asg_info, AiIncident.scale_up, AiIncident.scale_down,
    AiIncident.scale_up_increment, py_get, py_gt_int, printf, json_dumps.
  repeat indist_step.
Qed.

Lemma indist_n8n_lambda_handler cfg event :
  indistinguishable
    (N8nWorkflow.lambda_handler cfg (with_put_metric_data env pm) event)
    (N8nWorkflow.lambda_handler cfg env event).
Proof.
  unfold N8nWorkflow.lambda_handler, N8nWorkflow.lambda_handler_try,
    N8nWorkflow.parse_event, N8nWorkflow.has_body, N8nWorkflow.get_body,
    N8nWorkflow.is_in_cooldown, N8nWorkflow.get_cooldown_remaining,
    N8nWorkflow.get_asg_info, N8nWorkflow.handle_scale_up,
    N8nWorkflow.handle_scale_down, N8nWorkflow.create_response, py_get,
    printf, json_dumps.
  repeat indist_step.
Qed.

End Indistinguishable.

(** C8. [log_scaling_event] and [send_scaling_metric] return whatever
    CloudWatch answers; an exception of [put_metric_data] is printed and
    goes no further. Replacing the answers of CloudWatch changes neither
    the response of a handler nor the calls it makes. *)
Theorem metric_failures_are_swallowed :
  forall (cfg : AiIncident.Config) (cfg' : N8nWorkflow.Config) (env : Env)
         (pm : nat -> string -> list MetricDatum -> outcome unit)
         (event action alert_type : pyval) (result : AiIncident.Result)
         (asg_name action' : string) (change : Z) (st : St),
    let env' := with_put_metric_data env pm in
    let logged := AiIncident.log_scaling_event cfg env action alert_type result st in
    let sent := N8nWorkflow.send_scaling_metric env asg_name alert_type action' change st in
    fst logged = Ok tt
    /\ fst sent = Ok tt
    /\ (forall e, (forall t ns data, put_metric_data env t ns data = Raise e) ->
          log (snd logged) = log st ++ [Lit "Failed to log to CloudWatch: " :: exn_msg e]
          /\ log (snd sent) = log st ++ [Lit "Error sending metrics: " :: exn_msg e])
    /\ fst (AiIncident.lambda_handler cfg env' event st)
       = fst (AiIncident.lambda_handler cfg env event st)
    /\ same_world (snd (AiIncident.lambda_handler cfg env' event st))
                  (snd (AiIncident.lambda_handler cfg env event st))
    /\ fst (N8nWorkflow.lambda_handler cfg' env' event st)
       = fst (N8nWorkflow.lambda_handler cfg' env event st)
    /\ same_world (snd (N8nWorkflow.lambda_handler cfg' env' event st))
                  (snd (N8nWorkflow.lambda_handler cfg' env event st)).
Proof.
  intros cfg cfg' env pm event action alert_type result asg_name action' change st
         env' logged sent.
  split; [|split; [|split]].
  - subst logged. unfold AiIncident.log_scaling_event. unfold_monad. cbn.
    repeat break_match; cbn; repeat match goal with u : unit |- _ => destruct u end;
      reflexivity.
  - apply send_scaling_metric_ok.
  - intros e He. subst logged sent.
    unfold AiIncident.log_scaling_event, N8nWorkflow.send_scaling_metric.
    unfold_monad. cbn. rewrite !He. split; reflexivity.
  - destruct (indist_ai_lambda_handler env pm cfg event st st (same_world_refl st))
      as [Ha Ha'].
    destruct (indist_n8n_lambda_handler env pm cfg' event st st (same_world_refl st))
      as [Hn Hn'].
    split; [exact Ha|]. split; [exact Ha'|]. split; [exact Hn|exact Hn'].
Qed.

(** CloudWatch is throttled while the test event is handled. *)
Lemma metric_failures_are_swallowed_witness :
  log (snd (AiIncident.log_scaling_event AiIncident.default_config
              (failing_env throttled 0) (PStr "scale_up") (PStr "cpu") [] st0))
  = [[Lit "Failed to log to CloudWatch: "; Lit "Rate exceeded"]]
  /\ fst (AiIncident.lambda_handler AiIncident.default_config
            (with_put_metric_data (fixed_env [production_asg 4] [] 0)
               (fun _ _ _ => Raise throttled)) test_event st0)
     = fst (AiIncident.lambda_handler AiIncident.default_config
              (fixed_env [production_asg 4] [] 0) test_event st0).
Proof.
  split.
  - destruct (metric_failures_are_swallowed AiIncident.default_config
                N8nWorkflow.default_config (failing_env throttled 0)
                (fun _ _ _ => Raise throttled) test_event (PStr "scale_up") (PStr "cpu") []
                "production-asg" "scale_up" 2 st0) as [_ [_ [Hlog _]]].
    apply (Hlog throttled). intros t ns data. reflexivity.
  - destruct (metric_failures_are_swallowed AiIncident.default_config
                N8nWorkflow.default_config (fixed_env [production_asg 4] [] 0)
                (fun _ _ _ => Raise throttled) test_event (PStr "scale_up") (PStr "cpu") []
                "production-asg" "scale_up" 2 st0) as [_ [_ [_ [Hsame _]]]].
    exact Hsame.
Defined.

(** C10. The ai-incident handler prints the event inside its [try]:
    whatever the event and whatever AWS answers, it returns a response, the
    one of the [try] body when that returns and otherwise a response of
    status 500 that carries the message of the exception. The n8n handler
    prints the event before its [try]: it returns a response in the same
    way once that first line is rendered, and when the interpreter cannot
    render the event, the exception leaves the handler and no response is
    returned, where the ai-incident handler answers 500 without a call to
    AWS. *)
Theorem n8n_first_print_is_outside_the_try :
  forall (cfg : AiIncident.Config) (cfg' : N8nWorkflow.Config) (env : Env)
         (event : pyval) (st : St),
    (exists r st',
        AiIncident.lambda_handler cfg env event st = (Ok r, st')
        /\ (forall r0 s, AiIncident.lambda_handler_try cfg env event st = (Ok r0, s) ->
              r = r0)
        /\ (forall e s, AiIncident.lambda_handler_try cfg env event st = (Raise e, s) ->
              r = AiIncident.mkResponse 500
                    [("success", FBool false);
                     ("error", FText (exn_msg e));
                     ("timestamp", FTime (datetime_now env (tick s)))]))
    /\ (render env (tick st) (received event) = None ->
        exists r st',
          N8nWorkflow.lambda_handler cfg' env event st = (Ok r, st')
          /\ let printed := mkSt (tick st) (calls st) (log st ++ [received event]) in
             (forall r0 s,
                 N8nWorkflow.lambda_handler_try cfg' env event printed = (Ok r0, s) ->
                 r = r0)
             /\ (forall e s,
                   N8nWorkflow.lambda_handler_try cfg' env event printed = (Raise e, s) ->
                   r = N8nWorkflow.response 500
                         [("error", FStr "Internal server error");
                          ("message", FText (exn_msg e));
                          ("alert_sent_to_ops", FBool true)]))
    /\ (forall e, render env (tick st) (received event) = Some e ->
        N8nWorkflow.lambda_handler cfg' env event st = (Raise e, st)
        /\ exists st',
             AiIncident.lambda_handler cfg env event st =
               (Ok (AiIncident.mkResponse 500
                      [("success", FBool false);
                       ("error", FText (exn_msg e));
                       ("timestamp", FTime (datetime_now env (tick st)))]), st')
             /\ calls st' = calls st).
Proof.
  intros cfg cfg' env event st. split; [|split].
  - unfold AiIncident.lambda_handler, try_except.
    destruct (AiIncident.lambda_handler_try cfg env event st) as [[r|e] s].
    + exists r, s. split; [reflexivity|]. split.
      * intros r0 s0 H. congruence.
      * intros e s0 H. discriminate.
    + unfold_monad. cbn. eexists. eexists. split; [reflexivity|]. split.
      * intros r0 s0 H. discriminate.
      * intros e0 s0 H. inversion H. reflexivity.
  - intros Hprint. unfold N8nWorkflow.lambda_handler.
    assert (Hfirst : printf env (received event) st
                     = (Ok tt, mkSt (tick st) (calls st) (log st ++ [received event]))).
    { unfold printf, fstring, bind, print. cbn. rewrite Hprint. reflexivity. }
    unfold received in Hfirst. rewrite (bind_ok _ _ _ _ _ Hfirst).
    unfold try_except. cbv zeta. fold (received event).
    destruct (N8nWorkflow.lambda_handler_try cfg' env event _) as [[r|e] s].
    + exists r, s. split; [reflexivity|]. split.
      * intros r0 s0 H. congruence.
      * intros e s0 H. discriminate.
    + unfold N8nWorkflow.create_response. unfold_monad. cbn.
      eexists. eexists. split; [reflexivity|]. split.
      * intros r0 s0 H. discriminate.
      * intros e0 s0 H. inversion H. reflexivity.
  - intros e Hprint. split.
    + unfold N8nWorkflow.lambda_handler, printf, fstring, bind. cbn.
      unfold received in Hprint. rewrite Hprint. reflexivity.
    + unfold AiIncident.lambda_handler, AiIncident.lambda_handler_try.
      unfold_monad. cbn. unfold received in Hprint. rewrite Hprint. cbn.
      eexists. split; reflexivity.
Qed.

(** An event whose [metric_value] is a list nested a thousand deep, for an
    interpreter whose stack has room for 990 levels. *)
Lemma n8n_first_print_is_outside_the_try_witness :
  let env := with_render (fixed_env [production_asg 4] [] 7)
                         (fun _ => limited_render 990) in
  let event := PDict [("action", PStr "scale_up"); ("metric_value", nested 1000)] in
  N8nWorkflow.lambda_handler N8nWorkflow.default_config env event st0
  = (Raise (too_deep "encoding a JSON object"), st0)
  /\ exists st',
       AiIncident.lambda_handler AiIncident.default_config env event st0 =
         (Ok (AiIncident.mkResponse 500
                [("success", FBool false);
                 ("error", FText [Lit "maximum recursion depth exceeded while ";
                                  Lit "encoding a JSON object"]);
                 ("timestamp", FTime 7)]), st')
       /\ calls st' = [].
Proof.
  intros env event.
  apply (proj2 (proj2 (n8n_first_print_is_outside_the_try AiIncident.default_config
                         N8nWorkflow.default_config env event st0))
           (too_deep "encoding a JSON object")).
  vm_compute. reflexivity.
Defined.

(** * Further properties of the handlers *)

Lemma metric_calls_app cs1 cs2 :
  metric_calls (cs1 ++ cs2) = metric_calls cs1 ++ metric_calls cs2.
Proof.
  induction cs1 as [|c cs1 IH]; [reflexivity|].
  destruct c; cbn; rewrite IH; reflexivity.
Qed.


(** ** The ai-incident handler *)

(** X1. When the Auto Scaling Group cannot be read, because AWS lists no
    group or because the lookup raises, the ai-incident handler, having
    printed the event, answers 500 with the message of the failure,
    whatever the action of the event, and the lookup is the only call it
    makes: no capacity is requested and no metric is sent. *)
Theorem ai_group_read_failure :
  forall (cfg : AiIncident.Config) (env : Env) (d : list (string * pyval)) (st : St)
         (e : exn),
    let asg_name := AiIncident.AUTO_SCALING_GROUP_NAME cfg in
    let run := AiIncident.lambda_handler cfg env (PDict d) st in
    render env (tick st) (received (PDict d)) = None ->
    (describe_auto_scaling_groups env (tick st) [asg_name] = Ok []
     /\ e = mkExn "Exception"
              [Lit "Auto Scaling Group '"; Lit asg_name; Lit "' not found"])
    \/ describe_auto_scaling_groups env (tick st) [asg_name] = Raise e ->
    fst run = Ok (AiIncident.mkResponse 500
                    [("success", FBool false);
                     ("error", FText (exn_msg e));
                     ("timestamp", FTime (datetime_now env (S (tick st))))])
    /\ calls (snd run) = calls st ++ [DescribeAutoScalingGroups [asg_name]].
Proof.
  intros cfg env d st e asg_name run Hprint H. subst run.
  unfold received in Hprint.
  unfold AiIncident.lambda_handler, AiIncident.lambda_handler_try,
    AiIncident.get_asg_info, py_get.
  unfold_monad. cbn. rewrite Hprint. cbn. fold asg_name.
  destruct H as [[H He]|H]; rewrite H; cbn; [subst e|]; split; reflexivity.
Qed.

(** The default group does not exist. *)
Lemma ai_group_read_failure_witness :
  fst (AiIncident.lambda_handler AiIncident.default_config (fixed_env [] [] 7)
         test_event st0)
  = Ok (AiIncident.mkResponse 500
          [("success", FBool false);
           ("error", FText [Lit "Auto Scaling Group '"; Lit "production-asg";
                            Lit "' not found"]);
           ("timestamp", FTime 7)]).
Proof.
  apply (ai_group_read_failure AiIncident.default_config (fixed_env [] [] 7)
           test_event_fields st0
           (mkExn "Exception" [Lit "Auto Scaling Group '"; Lit "production-asg";
                               Lit "' not found"])).
  - reflexivity.
  - left. split; reflexivity.
Defined.

(** X2. [scale_up] compares the confidence with 90 only when the severity
    is not critical: a critical alert is scaled by twice the increment
    whatever its confidence is, even a string, while a non-critical alert
    whose confidence is not a number raises a TypeError before any call to
    AWS. *)
Theorem critical_skips_the_confidence_test :
  forall (cfg : AiIncident.Config) (env : Env) (asg_info : AiIncident.AsgInfo)
         (alert_type severity ai_confidence : pyval) (st : St),
    let increment := fst (AiIncident.scale_up_increment cfg severity ai_confidence st) in
    let run := AiIncident.scale_up cfg env asg_info alert_type severity ai_confidence st in
    (py_eq_str severity "critical" = true ->
     increment = Ok (AiIncident.SCALE_UP_INCREMENT cfg * 2))
    /\ (py_eq_str severity "critical" = false -> is_number ai_confidence = false ->
        exists e, fst run = Raise e /\ exn_class e = "TypeError" /\ snd run = st).
Proof.
  intros cfg env asg_info alert_type severity ai_confidence st increment run.
  subst increment run.
  unfold AiIncident.scale_up, AiIncident.scale_up_increment, py_gt_int.
  unfold_monad. split; intros Hsev.
  - rewrite Hsev. reflexivity.
  - intros Hnum. rewrite Hsev.
    destruct ai_confidence; try discriminate; cbn; eexists; repeat split.
Qed.

(** A critical alert whose confidence is the string "95%", and a warning
    with the same confidence. *)
Lemma critical_skips_the_confidence_test_witness :
  fst (AiIncident.scale_up_increment AiIncident.default_config (PStr "critical")
         (PStr "95%") st0) = Ok 4
  /\ exists e,
       fst (AiIncident.scale_up AiIncident.default_config (fixed_env [] [] 0)
              (AiIncident.mkAsgInfo "production-asg" 4 2 10 0 [] [])
              (PStr "cpu") (PStr "warning") (PStr "95%") st0) = Raise e
       /\ exn_class e = "TypeError".
Proof.
  destruct (critical_skips_the_confidence_test AiIncident.default_config
              (fixed_env [] [] 0) (AiIncident.mkAsgInfo "production-asg" 4 2 10 0 [] [])
              (PStr "cpu") (PStr "critical") (PStr "95%") st0) as [Hc _].
  destruct (critical_skips_the_confidence_test AiIncident.default_config
              (fixed_env [] [] 0) (AiIncident.mkAsgInfo "production-asg" 4 2 10 0 [] [])
              (PStr "cpu") (PStr "warning") (PStr "95%") st0) as [_ Hw].
  split; [exact (Hc eq_refl)|].
  destruct (Hw eq_refl eq_refl) as [e [He [Hcl _]]].
  exists e. split; assumption.
Defined.

(** X3. Whatever the current capacity, the configuration and the alert, a
    run of [scale_up] requests at most one capacity, never above
    MAX_CAPACITY and never the current one, and a run of [scale_down] at
    most one, never below MIN_CAPACITY and never the current one. *)
Theorem ai_requests_stay_within_bounds :
  forall (cfg : AiIncident.Config) (env : Env) (asg_info : AiIncident.AsgInfo)
         (alert_type severity ai_confidence : pyval) (st : St),
    let current := AiIncident.desired_capacity asg_info in
    let up := AiIncident.scale_up cfg env asg_info alert_type severity ai_confidence st in
    let down := AiIncident.scale_down cfg env asg_info st in
    (exists reqs,
        capacity_requests (calls (snd up)) = capacity_requests (calls st) ++ reqs
        /\ (List.length reqs <= 1)%nat
        /\ Forall (fun q => fst q <= AiIncident.MAX_CAPACITY cfg /\ fst q <> current) reqs)
    /\ (exists reqs,
          capacity_requests (calls (snd down)) = capacity_requests (calls st) ++ reqs
          /\ (List.length reqs <= 1)%nat
          /\ Forall (fun q => AiIncident.MIN_CAPACITY cfg <= fst q /\ fst q <> current) reqs).
Proof.
  intros cfg env asg_info alert_type severity ai_confidence st current up down.
  split.
  - destruct (scale_up_requests_any env cfg asg_info alert_type severity ai_confidence st)
      as [reqs [Hreqs Hcases]].
    exists reqs. split; [exact Hreqs|].
    destruct Hcases as [Hnil|[increment [_ [Hneq Hone]]]]; subst reqs; cbn.
    + split; auto.
    + split; auto. constructor; [|constructor]. cbn. fold current in Hneq |- *.
      apply Z.eqb_neq in Hneq. split; [lia|exact Hneq].
  - destruct (scale_down_requests_any env cfg asg_info st) as [reqs [Hreqs Hcases]].
    exists reqs. split; [exact Hreqs|].
    destruct Hcases as [Hnil|[Hneq Hone]]; subst reqs; cbn.
    + split; auto.
    + split; auto. constructor; [|constructor]. cbn. fold current in Hneq |- *.
      apply Z.eqb_neq in Hneq. split; [lia|exact Hneq].
Qed.





(** X6. Whatever the event, whatever AWS answers and whatever the
    interpreter renders, the ai-incident handler answers with status 200
    or 500, requests at most one capacity and sends its ScalingAction
    metric at most once, exactly once when it answers 200 (also for an
    analysis or a "no_change"). When every line is rendered it sends no
    metric when it answers 500. *)
Theorem ai_one_metric_per_answered_event :
  forall (cfg : AiIncident.Config) (env : Env) (event : pyval) (st : St),
    exists r st' metrics reqs,
      AiIncident.lambda_handler cfg env event st = (Ok r, st')
      /\ (AiIncident.statusCode r = 200 \/ AiIncident.statusCode r = 500)
      /\ metric_calls (calls st') = metric_calls (calls st) ++ metrics
      /\ (List.length metrics <= 1)%nat
      /\ (AiIncident.statusCode r = 200 -> List.length metrics = 1%nat)
      /\ (renders_all env ->
          List.length metrics = (if AiIncident.statusCode r =? 200 then 1%nat else 0%nat))
      /\ capacity_requests (calls st') = capacity_requests (calls st) ++ reqs
      /\ (List.length reqs <= 1)%nat.
Proof.
  intros cfg env event st.
  unfold AiIncident.lambda_handler, AiIncident.lambda_handler_try,
    AiIncident.get_asg_info, AiIncident.scale_up, AiIncident.scale_down,
    AiIncident.log_scaling_event, AiIncident.scale_up_increment, py_get, py_gt_int.
  unfold_monad.
  destruct event; cbn;
    repeat (break_match; cbn);
    do 4 eexists;
    (split; [reflexivity|]); cbn;
    (split; [first [left; reflexivity | right; reflexivity]|]);
    (split; [cbn [calls snd]; repeat rewrite metric_calls_app; cbn [metric_calls];
             repeat rewrite <- app_assoc; cbn [app];
             first [reflexivity | symmetry; apply app_nil_r]|]);
    (split; [cbn; lia|]);
    (split; [cbn; intros H; first [reflexivity | discriminate H]|]);
    (split; [intros Hr; first [reflexivity | rendered]|]);
    (split; [cbn [calls snd]; repeat rewrite capacity_requests_app;
             cbn [capacity_requests]; repeat rewrite <- app_assoc; cbn [app];
             first [reflexivity | symmetry; apply app_nil_r]|]);
    cbn; lia.
Qed.

(** X7. When AWS refuses the capacity change, [scale_up] and [scale_down]
    raise its exception after that one call, and the ai-incident handler
    answers 500 with the message of AWS without sending a metric. *)
Theorem ai_refused_capacity_change :
  forall (cfg : AiIncident.Config) (env : Env) (d : list (string * pyval)) (st : St)
         (asg : ASG) (rest : list ASG) (capacity : Z) (honor : bool) (e : exn),
    let asg_name := AiIncident.AUTO_SCALING_GROUP_NAME cfg in
    let run := AiIncident.lambda_handler cfg env (PDict d) st in
    describe_auto_scaling_groups env (tick st) [asg_name] = Ok (asg :: rest) ->
    capacity_requests (calls (snd run)) = capacity_requests (calls st) ++ [(capacity, honor)] ->
    set_desired_capacity env (S (tick st)) asg_name capacity honor = Raise e ->
    fst run = Ok (AiIncident.mkResponse 500
                    [("success", FBool false);
                     ("error", FText (exn_msg e));
                     ("timestamp", FTime (datetime_now env (S (S (tick st)))))])
    /\ calls (snd run) =
         calls st ++ [DescribeAutoScalingGroups [asg_name];
                      SetDesiredCapacity asg_name capacity honor].
Proof.
  intros cfg env d st asg rest capacity honor e asg_name run Hasg.
  assert (Hnil : forall (l : list (Z * bool)) x, l = l ++ [x] -> False).
  { intros l x H. apply (f_equal (@List.length _)) in H.
    rewrite length_app in H. cbn in H. lia. }
  assert (Hone : forall (l : list (Z * bool)) x y, l ++ [x] = l ++ [y] -> x = y).
  { intros l x y H. apply app_inv_head in H. congruence. }
  destruct (AiIncident.lambda_handler cfg env (PDict d) st) as [o s'] eqn:Hrun.
  subst run. cbn [fst snd]. revert Hrun.
  unfold AiIncident.lambda_handler, AiIncident.lambda_handler_try,
    AiIncident.get_asg_info, AiIncident.scale_up, AiIncident.scale_down,
    AiIncident.log_scaling_event, AiIncident.scale_up_increment, py_get, py_gt_int.
  unfold_monad. cbn. fold asg_name.
  destruct (render env (tick st) _); cbn.
  - intros Hrun Hreq. inversion Hrun; subst. exfalso.
    revert Hreq. normalize_requests. intros Hreq. eapply Hnil; exact Hreq.
  - rewrite Hasg. cbn.
    repeat (break_match; cbn);
      intros Hrun; inversion Hrun; subst;
      cbn [calls snd]; repeat rewrite capacity_requests_app; cbn [capacity_requests];
      repeat rewrite <- app_assoc; cbn [app]; repeat rewrite app_nil_r;
      intros Hreq Hraise;
      try (exfalso; eapply Hnil; exact Hreq);
      apply Hone in Hreq; inversion Hreq; subst;
      try congruence;
      match goal with
      | H1 : set_desired_capacity _ _ _ _ _ = Raise ?e1,
        H2 : set_desired_capacity _ _ _ _ _ = Raise ?e2 |- _ =>
          assert (e1 = e2) by congruence; subst
      end;
      split; reflexivity.
Qed.

(** The critical scale-up of the test event from 4 instances, refused by
    AWS. *)
Lemma ai_refused_capacity_change_witness :
  fst (AiIncident.lambda_handler AiIncident.default_config
         (refusing_env [production_asg 4] [] 7 throttled) test_event st0)
  = Ok (AiIncident.mkResponse 500
          [("success", FBool false);
           ("error", FText [Lit "Rate exceeded"]);
           ("timestamp", FTime 7)])
  /\ calls (snd (AiIncident.lambda_handler AiIncident.default_config
                   (refusing_env [production_asg 4] [] 7 throttled) test_event st0))
     = [DescribeAutoScalingGroups ["production-asg"];
        SetDesiredCapacity "production-asg" 8 false].
Proof.
  apply (ai_refused_capacity_change AiIncident.default_config
           (refusing_env [production_asg 4] [] 7 throttled) test_event_fields st0
           (production_asg 4) [] 8 false throttled).
  - reflexivity.
  - vm_compute. reflexivity.
  - reflexivity.
Defined.

(** X8. An event that is not a dict and that the interpreter can print is
    answered 500 by the ai-incident handler, with the AttributeError of
    Python as its error, after a single reading of the clock and without
    any call to AWS. *)
Theorem ai_event_that_is_not_a_dict :
  forall (cfg : AiIncident.Config) (env : Env) (event : pyval) (st : St),
    (forall d, event <> PDict d) ->
    render env (tick st) (received event) = None ->
    let run := AiIncident.lambda_handler cfg env event st in
    fst run = Ok (AiIncident.mkResponse 500
                    [("success", FBool false);
                     ("error", FText [Lit "'"; Lit (type_name event);
                                      Lit "' object has no attribute 'get'"]);
                     ("timestamp", FTime (datetime_now env (tick st)))])
    /\ calls (snd run) = calls st
    /\ tick (snd run) = S (tick st).
Proof.
  intros cfg env event st Hnot Hprint run. subst run.
  unfold received in Hprint.
  unfold AiIncident.lambda_handler, AiIncident.lambda_handler_try, py_get.
  unfold_monad. cbn. rewrite Hprint.
  destruct event; cbn; try (repeat split; reflexivity).
  exfalso. apply (Hnot d). reflexivity.
Qed.

(** A list of records, as a batch of alerts would be. *)
Lemma ai_event_that_is_not_a_dict_witness :
  fst (AiIncident.lambda_handler AiIncident.default_config
         (fixed_env [production_asg 4] [] 7) (PList [test_event]) st0)
  = Ok (AiIncident.mkResponse 500
          [("success", FBool false);
           ("error", FText [Lit "'"; Lit "list"; Lit "' object has no attribute 'get'"]);
           ("timestamp", FTime 7)]).
Proof.
  apply (ai_event_that_is_not_a_dict AiIncident.default_config
           (fixed_env [production_asg 4] [] 7) (PList [test_event]) st0).
  - intros d H. discriminate H.
  - reflexivity.
Defined.



(** ** The n8n handler *)

(** X10. Whatever the current capacity and the configuration, a run of
    [handle_scale_up] requests at most one capacity, strictly above the
    current one and at most MAX_INSTANCES, and a run of [handle_scale_down]
    at most one, exactly one instance below the current capacity and at
    least MIN_INSTANCES. *)
Theorem n8n_requests_move_in_the_right_direction :
  forall (cfg : N8nWorkflow.Config) (env : Env) (asg_name : string)
         (current_capacity : Z) (alert_type metric_value ai_confidence : pyval) (st : St),
    let up := N8nWorkflow.handle_scale_up cfg env asg_name current_capacity
                alert_type metric_value ai_confidence st in
    let down := N8nWorkflow.handle_scale_down cfg env asg_name current_capacity
                  alert_type st in
    (exists reqs,
        capacity_requests (calls (snd up)) = capacity_requests (calls st) ++ reqs
        /\ (List.length reqs <= 1)%nat
        /\ Forall (fun q => current_capacity < fst q <= N8nWorkflow.MAX_INSTANCES cfg) reqs)
    /\ (exists reqs,
          capacity_requests (calls (snd down)) = capacity_requests (calls st) ++ reqs
          /\ (List.length reqs <= 1)%nat
          /\ Forall (fun q => fst q = current_capacity - 1
                              /\ N8nWorkflow.MIN_INSTANCES cfg <= fst q) reqs).
Proof.
  intros cfg env asg_name current_capacity alert_type metric_value ai_confidence st
         up down.
  split.
  - destruct (handle_scale_up_requests_any env cfg asg_name current_capacity alert_type
                metric_value ai_confidence st) as [reqs [Hreqs Hcases]].
    exists reqs. split; [exact Hreqs|].
    destruct Hcases as [Hnil|[Hle Hone]]; subst reqs; cbn.
    + split; auto.
    + split; auto. constructor; [|constructor]. cbn. apply Z.leb_gt in Hle. lia.
  - destruct (handle_scale_down_requests_any env cfg asg_name current_capacity alert_type
                st) as [reqs [Hreqs Hcases]].
    exists reqs. split; [exact Hreqs|].
    destruct Hcases as [Hnil|[Hge Hone]]; subst reqs; cbn.
    + split; auto.
    + split; auto. constructor; [|constructor]. cbn.
      assert (Z.max (current_capacity - 1) (N8nWorkflow.MIN_INSTANCES cfg)
              < current_capacity).
      { destruct (Z.max (current_capacity - 1) (N8nWorkflow.MIN_INSTANCES cfg)
                  ?= current_capacity) eqn:Hc;
          unfold Z.geb in Hge; rewrite Hc in Hge; try discriminate.
        apply Z.compare_lt_iff in Hc. exact Hc. }
      lia.
Qed.







(** The true division of ints that are not negative is not negative. *)
Lemma round_half_even_nonneg n d :
  0 <= n -> 0 < d -> 0 <= N8nWorkflow.round_half_even n d.
Proof.
  intros Hn Hd. unfold N8nWorkflow.round_half_even. cbv zeta.
  assert (0 <= n / d) by (apply Z.div_pos; lia).
  repeat break_match; lia.
Qed.

Lemma int_of_true_division_nonneg n d :
  0 <= n -> 0 < d -> 0 <= N8nWorkflow.int_of_true_division n d.
Proof.
  intros Hn Hd. unfold N8nWorkflow.int_of_true_division. cbv zeta.
  match goal with
  | |- 0 <= (if 0 <=? ?e then ?m * _ else _) =>
      set (significand := m); set (shift := e)
  end.
  assert (Hm : 0 <= significand).
  { subst significand. apply round_half_even_nonneg.
    - apply Z.mul_nonneg_nonneg; [lia|]. apply Z.pow_nonneg. lia.
    - apply Z.mul_pos_pos; [lia|]. apply Z.pow_pos_nonneg; lia. }
  destruct (0 <=? shift) eqn:He.
  - apply Z.mul_nonneg_nonneg; [lia|]. apply Z.pow_nonneg. lia.
  - apply Z.leb_gt in He. apply Z.div_pos; [lia|]. apply Z.pow_pos_nonneg; lia.
Qed.

(** [int(td.total_seconds())] has the sign of the timedelta. *)
Lemma int_total_seconds_sign us :
  (us <= 0 -> N8nWorkflow.int_total_seconds us <= 0)
  /\ (0 <= us -> 0 <= N8nWorkflow.int_total_seconds us).
Proof.
  unfold N8nWorkflow.int_total_seconds.
  destruct (Z.eqb_spec us 0) as [->|Hne]; [lia|].
  pose proof (int_of_true_division_nonneg (Z.abs us) 1000000 (Z.abs_nonneg us)
                ltac:(lia)) as H.
  split; intros Hs.
  - rewrite Z.sgn_neg by lia. lia.
  - rewrite Z.sgn_pos by lia. lia.
Qed.

(** The end of a cooldown, when there is one. *)
Lemma cooldown_end_ok cfg a finish :
  N8nWorkflow.cooldown_end cfg a = Ok finish ->
  finish = StartTime a + seconds (N8nWorkflow.COOLDOWN_PERIOD cfg).
Proof.
  unfold N8nWorkflow.cooldown_end, N8nWorkflow.timedelta_seconds,
    N8nWorkflow.datetime_add, seconds. cbv zeta.
  repeat (break_match; try discriminate). intros H. congruence.
Qed.

(** X14. With a last activity whose cooldown ends on a datetime, the
    remaining cooldown is never negative, it is 0 once the cooldown is
    over, and the tracker answers True exactly while time is left. While
    fewer than 2^53 microseconds are left, where the float of
    [total_seconds] is exact to the microsecond, the remaining cooldown is
    the number of whole seconds left, rounded down: at most COOLDOWN_PERIOD
    once the activity has started, and 0 during the last second of a
    running cooldown. When the end of the cooldown is not a datetime, the
    OverflowError of the addition is caught: the tracker answers False and
    0 seconds, without reading the clock. *)
Theorem cooldown_remaining_is_rounded_down :
  forall (cfg : N8nWorkflow.Config) (env : Env) (asg_name : string) (st : St)
         (a : Activity) (rest : list Activity),
    describe_scaling_activities env (tick st) asg_name 1 = Ok (a :: rest) ->
    let clock := datetime_now env (S (tick st)) in
    let suppressed := N8nWorkflow.is_in_cooldown cfg env asg_name st in
    let answer := N8nWorkflow.get_cooldown_remaining cfg env asg_name st in
    (forall finish, N8nWorkflow.cooldown_end cfg a = Ok finish ->
       let left := finish - clock in
       exists remaining,
         fst answer = Ok remaining
         /\ 0 <= remaining
         /\ (fst suppressed = Ok true <-> 0 < left)
         /\ (left <= 0 -> remaining = 0)
         /\ (Z.abs left < 2 ^ 53 ->
             (StartTime a <= clock -> 0 <= N8nWorkflow.COOLDOWN_PERIOD cfg ->
              remaining <= N8nWorkflow.COOLDOWN_PERIOD cfg)
             /\ (0 < left -> seconds remaining <= left < seconds (remaining + 1))))
    /\ (forall e, N8nWorkflow.cooldown_end cfg a = Raise e ->
          fst suppressed = Ok false /\ tick (snd suppressed) = S (tick st)
          /\ fst answer = Ok 0 /\ tick (snd answer) = S (tick st)).
Proof.
  intros cfg env asg_name st a rest H clock suppressed answer. split.
  - intros finish Hend left. subst suppressed answer.
    rewrite (get_cooldown_remaining_last cfg env asg_name st a rest finish H Hend),
            (is_in_cooldown_last cfg env asg_name st a rest finish H Hend).
    cbn [fst]. fold clock. fold left.
    eexists. split; [reflexivity|].
    destruct (int_total_seconds_sign left) as [Hneg Hpos].
    split; [lia|]. split; [|split].
    + split.
      * intros Hs. inversion Hs as [Hlt]. apply Z.ltb_lt in Hlt. subst left. lia.
      * intros Hl. f_equal. apply Z.ltb_lt. subst left. lia.
    + intros Hl. specialize (Hneg Hl). lia.
    + intros Hsmall. rewrite (int_total_seconds_small _ Hsmall).
      assert (Hq : 0 <= left -> 1000000 * (left ÷ 1000000) <= left
                                 < 1000000 * (left ÷ 1000000) + 1000000).
      { intros Hl. rewrite Z.quot_div_nonneg by lia.
        pose proof (Z.mul_div_le left 1000000 ltac:(lia)).
        pose proof (Z.mul_succ_div_gt left 1000000 ltac:(lia)). lia. }
      assert (Hn : left <= 0 -> left ÷ 1000000 <= 0).
      { intros Hl. apply Z.quot_le_upper_bound; lia. }
      assert (Hp : 0 <= left -> 0 <= left ÷ 1000000).
      { intros Hl. apply Z.quot_pos; lia. }
      split.
      * intros Hstart Hcd.
        assert (left <= 1000000 * N8nWorkflow.COOLDOWN_PERIOD cfg).
        { subst left. rewrite (cooldown_end_ok cfg a finish Hend). unfold seconds. lia. }
        destruct (Z.le_gt_cases left 0) as [Hl|Hl].
        -- specialize (Hn Hl). lia.
        -- specialize (Hq ltac:(lia)). specialize (Hp ltac:(lia)). nia.
      * intros Hl. specialize (Hq ltac:(lia)). specialize (Hp ltac:(lia)).
        rewrite Z.max_r by lia. unfold seconds. lia.
  - intros e Hend. subst suppressed answer.
    rewrite (get_cooldown_remaining_overflow cfg env asg_name st a rest e H Hend),
            (is_in_cooldown_overflow cfg env asg_name st a rest e H Hend).
    repeat split.
Qed.

(** Half a second before the end of the default cooldown; and one second
    after an activity when COOLDOWN_PERIOD is 300000000000 seconds, which
    ends after the year 9999. *)
Lemma cooldown_remaining_is_rounded_down_witness :
  (fst (N8nWorkflow.is_in_cooldown N8nWorkflow.default_config
          (fixed_env [] [mkActivity 0] 299500000) "production-asg" st0) = Ok true
   /\ exists remaining,
        fst (N8nWorkflow.get_cooldown_remaining N8nWorkflow.default_config
               (fixed_env [] [mkActivity 0] 299500000) "production-asg" st0) = Ok remaining
        /\ 0 <= remaining)
  /\ fst (N8nWorkflow.is_in_cooldown
            (N8nWorkflow.mkConfig "production-asg" 2 10 2 300000000000 "us-east-1")
            (fixed_env [] [mkActivity 0] 1000000) "production-asg" st0) = Ok false.
Proof.
  split.
  - destruct (proj1 (cooldown_remaining_is_rounded_down N8nWorkflow.default_config
                       (fixed_env [] [mkActivity 0] 299500000) "production-asg" st0
                       (mkActivity 0) [] eq_refl) 300000000 eq_refl)
      as [r [Hrun [Hpos [Hin _]]]].
    split.
    + apply Hin. reflexivity.
    + exists r. split; assumption.
  - apply (proj2 (cooldown_remaining_is_rounded_down
                    (N8nWorkflow.mkConfig "production-asg" 2 10 2 300000000000 "us-east-1")
                    (fixed_env [] [mkActivity 0] 1000000) "production-asg" st0
                    (mkActivity 0) [] eq_refl)
             (mkExn "OverflowError" [Lit "date value out of range"])).
    reflexivity.
Defined.





(** The first statement of the n8n handler, when the event is printed. *)
Lemma n8n_first_print cfg env event st :
  render env (tick st) (received event) = None ->
  N8nWorkflow.lambda_handler cfg env event st =
    try_except (N8nWorkflow.lambda_handler_try cfg env event)
      (fun e =>
         print (Lit "Error in lambda_handler: " :: exn_msg e) ;;
         print (Lit "Traceback (most recent call last): " :: Lit (exn_class e)
                  :: Lit ": " :: exn_msg e) ;;
         N8nWorkflow.create_response env 500
           [("error", FStr "Internal server error");
            ("message", FText (exn_msg e));
            ("alert_sent_to_ops", FBool true)])
      (mkSt (tick st) (calls st) (log st ++ [received event])).
Proof.
  intros Hprint. unfold N8nWorkflow.lambda_handler.
  assert (Hfirst : printf env (received event) st
                   = (Ok tt, mkSt (tick st) (calls st) (log st ++ [received event]))).
  { unfold printf, fstring, bind, print. cbn. rewrite Hprint. reflexivity. }
  unfold received in Hfirst. rewrite (bind_ok _ _ _ _ _ Hfirst). reflexivity.
Qed.

(** X17. An event that is printed and from which no dict of fields comes
    out, because [parse_event] raises (a body that is not JSON, an event
    that is a number) or yields something else than a dict (a null body, a
    JSON list), is answered 500 by the n8n handler with the message of the
    exception, before any call to AWS and any reading of the clock. *)
Theorem n8n_event_without_fields :
  forall (cfg : N8nWorkflow.Config) (env : Env) (event : pyval) (st : St) (e : exn),
    render env (tick st) (received event) = None ->
    fst (N8nWorkflow.parse_event env event st0) = Raise e
    \/ (exists body,
          fst (N8nWorkflow.parse_event env event st0) = Ok body
          /\ (forall d, body <> PDict d)
          /\ e = mkExn "AttributeError"
                   [Lit "'"; Lit (type_name body); Lit "' object has no attribute 'get'"]) ->
    exists st',
      N8nWorkflow.lambda_handler cfg env event st =
        (Ok (N8nWorkflow.response 500
               [("error", FStr "Internal server error");
                ("message", FText (exn_msg e));
                ("alert_sent_to_ops", FBool true)]), st')
      /\ calls st' = calls st
      /\ tick st' = tick st.
Proof.
  intros cfg env event st e Hprint H.
  rewrite (n8n_first_print cfg env event st Hprint).
  unfold try_except, N8nWorkflow.lambda_handler_try.
  unfold bind at 1. rewrite parse_event_state.
  destruct H as [H|[body [H [Hnot He]]]]; rewrite H; cbn [fst].
  - unfold N8nWorkflow.create_response. unfold_monad. cbn. eexists. repeat split.
  - subst e. unfold py_get, N8nWorkflow.create_response. unfold_monad.
    destruct body; cbn; try (eexists; repeat split; fail).
    exfalso. apply (Hnot d). reflexivity.
Qed.

(** An API Gateway event whose body is null, and one whose body is not
    JSON. *)
Lemma n8n_event_without_fields_witness :
  (exists st',
     N8nWorkflow.lambda_handler N8nWorkflow.default_config
       (fixed_env [production_asg 4] [] 0) (PDict [("body", PNone)]) st0
     = (Ok (N8nWorkflow.response 500
              [("error", FStr "Internal server error");
               ("message", FText [Lit "'"; Lit "NoneType";
                                  Lit "' object has no attribute 'get'"]);
               ("alert_sent_to_ops", FBool true)]), st'))
  /\ (exists st',
        N8nWorkflow.lambda_handler N8nWorkflow.default_config
          (fixed_env [production_asg 4] [] 0) (PDict [("body", PStr "not json")]) st0
        = (Ok (N8nWorkflow.response 500
                 [("error", FStr "Internal server error");
                  ("message", FText [Lit "Expecting value: line 1 column 1 (char 0)"]);
                  ("alert_sent_to_ops", FBool true)]), st')).
Proof.
  split.
  - destruct (n8n_event_without_fields N8nWorkflow.default_config
                (fixed_env [production_asg 4] [] 0) (PDict [("body", PNone)]) st0
                (mkExn "AttributeError"
                   [Lit "'"; Lit "NoneType"; Lit "' object has no attribute 'get'"])
                eq_refl)
      as [st' [Hrun _]].
    + right. exists PNone. split; [reflexivity|]. split; [|reflexivity].
      intros d H. discriminate H.
    + exists st'. exact Hrun.
  - destruct (n8n_event_without_fields N8nWorkflow.default_config
                (fixed_env [production_asg 4] [] 0) (PDict [("body", PStr "not json")])
                st0 not_json eq_refl)
      as [st' [Hrun _]].
    + left. reflexivity.
    + exists st'. exact Hrun.
Defined.

(** X18. Whatever AWS answers and whatever the interpreter renders after
    the first line, the n8n handler answers an event it has printed with
    status 200, 400 or 500 and the two headers of [create_response],
    requests at most one capacity and sends at most one metric; an answer
    of status 400 comes with no request and no metric, and when every line
    is rendered a metric is only sent with an answer of status 200. *)
Theorem n8n_answer_shape :
  forall (cfg : N8nWorkflow.Config) (env : Env) (event : pyval) (st : St),
    render env (tick st) (received event) = None ->
    exists r st' metrics reqs,
      N8nWorkflow.lambda_handler cfg env event st = (Ok r, st')
      /\ (N8nWorkflow.statusCode r = 200 \/ N8nWorkflow.statusCode r = 400
          \/ N8nWorkflow.statusCode r = 500)
      /\ N8nWorkflow.headers r =
           [("Content-Type", "application/json"); ("Access-Control-Allow-Origin", "*")]
      /\ metric_calls (calls st') = metric_calls (calls st) ++ metrics
      /\ capacity_requests (calls st') = capacity_requests (calls st) ++ reqs
      /\ (List.length metrics <= 1)%nat
      /\ (List.length reqs <= 1)%nat
      /\ (renders_all env -> metrics <> [] -> N8nWorkflow.statusCode r = 200)
      /\ (N8nWorkflow.statusCode r = 400 -> metrics = [] /\ reqs = []).
Proof.
  intros cfg env event st Hprint.
  rewrite (n8n_first_print cfg env event st Hprint). clear Hprint.
  unfold try_except at 1. unfold N8nWorkflow.lambda_handler_try.
  unfold bind at 1. rewrite parse_event_state.
  destruct (fst (N8nWorkflow.parse_event env event st0)) as [body|e]; cbn [fst];
    [destruct body|];
    unfold N8nWorkflow.is_in_cooldown, N8nWorkflow.get_cooldown_remaining,
      N8nWorkflow.handle_scale_up, N8nWorkflow.handle_scale_down,
      N8nWorkflow.send_scaling_metric, N8nWorkflow.get_asg_info,
      N8nWorkflow.create_response, py_get;
    unfold_monad; cbn -[py_eq_str];
    repeat (break_match; cbn -[py_eq_str]);
    do 4 eexists;
    (split; [reflexivity|]); cbn;
    (split; [first [left; reflexivity | right; left; reflexivity
                   | right; right; reflexivity]|]);
    (split; [reflexivity|]);
    (split; [cbn [calls snd]; repeat rewrite metric_calls_app; cbn [metric_calls];
             repeat rewrite <- app_assoc; cbn [app];
             first [reflexivity | symmetry; apply app_nil_r]|]);
    (split; [cbn [calls snd]; repeat rewrite capacity_requests_app;
             cbn [capacity_requests]; repeat rewrite <- app_assoc; cbn [app];
             first [reflexivity | symmetry; apply app_nil_r]|]);
    cbn; (split; [lia|]); (split; [lia|]);
    (split; [intros Hr H; first [reflexivity | exfalso; apply H; reflexivity | rendered]
            | intros H; first [discriminate H | split; reflexivity]]).
Qed.

(** The test event with a group of four instances. *)
Lemma n8n_answer_shape_witness :
  exists r st',
    N8nWorkflow.lambda_handler N8nWorkflow.default_config
      (fixed_env [production_asg 4] [] 0) test_event st0 = (Ok r, st')
    /\ (N8nWorkflow.statusCode r = 200 \/ N8nWorkflow.statusCode r = 400
        \/ N8nWorkflow.statusCode r = 500).
Proof.
  destruct (n8n_answer_shape N8nWorkflow.default_config
              (fixed_env [production_asg 4] [] 0) test_event st0 eq_refl)
    as [r [st' [metrics [reqs [Hrun [Hstatus _]]]]]].
  exists r, st'. split; assumption.
Defined.

(** *** Events that the n8n handler cannot tell apart *)

(** One step in relating two runs made of the same operations. *)
Ltac same_run_step :=
  first
    [ apply indist_ret | apply indist_raise | apply indist_print | apply indist_lift
    | apply indist_fstring; reflexivity
    | apply indist_now; reflexivity | apply indist_aws
    | apply indist_bind; [|intros ?]
    | apply indist_try_except; [|intros ?]
    | match goal with
      | |- indistinguishable (match ?x with _ => _ end) _ => destruct x
      end
    | progress cbn beta iota zeta ].

(** Two events that are printed are printed alike, up to the line. *)
Lemma indist_received env e1 e2 :
  (forall t, render env t (received e1) = None) ->
  (forall t, render env t (received e2) = None) ->
  indistinguishable (printf env (received e1)) (printf env (received e2)).
Proof.
  intros H1 H2 s1 s2 [Ht Hc]. unfold printf, fstring, bind, print. cbn.
  unfold received in H1, H2. rewrite H1, H2. cbn.
  split; [reflexivity|]. split; assumption.
Qed.

(** The n8n handler reads five fields of the dict that [parse_event]
    yields; two events that are printed and whose dicts agree on them are
    handled alike: same response, same calls, only the printed event
    differs. *)
Lemma n8n_same_fields_same_run cfg env e1 e2 d1 d2 :
  (forall t, render env t (received e1) = None) ->
  (forall t, render env t (received e2) = None) ->
  fst (N8nWorkflow.parse_event env e1 st0) = Ok (PDict d1) ->
  fst (N8nWorkflow.parse_event env e2 st0) = Ok (PDict d2) ->
  dict_get d1 "alert_type" (PStr "unknown") = dict_get d2 "alert_type" (PStr "unknown") ->
  dict_get d1 "instance" (PStr "unknown") = dict_get d2 "instance" (PStr "unknown") ->
  dict_get d1 "metric_value" (PInt 0) = dict_get d2 "metric_value" (PInt 0) ->
  dict_get d1 "ai_confidence" (PStr "unknown") = dict_get d2 "ai_confidence" (PStr "unknown") ->
  dict_get d1 "action" (PStr "scale_up") = dict_get d2 "action" (PStr "scale_up") ->
  indistinguishable (N8nWorkflow.lambda_handler cfg env e1)
                    (N8nWorkflow.lambda_handler cfg env e2).
Proof.
  intros Hr1 Hr2 Hp1 Hp2 H1 H2 H3 H4 H5.
  unfold N8nWorkflow.lambda_handler.
  apply indist_bind; [apply (indist_received env e1 e2 Hr1 Hr2)|intros _].
  apply indist_try_except;
    [|intros e; unfold N8nWorkflow.create_response, json_dumps; repeat same_run_step].
  intros s1 s2 Hs. unfold N8nWorkflow.lambda_handler_try.
  rewrite (bind_ok _ _ s1 (PDict d1) s1) by (rewrite parse_event_state, Hp1; reflexivity).
  rewrite (bind_ok _ _ s2 (PDict d2) s2) by (rewrite parse_event_state, Hp2; reflexivity).
  cbv beta.
  rewrite (bind_ok _ _ s1 _ s1 (py_get_dict d1 "alert_type" (PStr "unknown") s1)),
          (bind_ok _ _ s2 _ s2 (py_get_dict d2 "alert_type" (PStr "unknown") s2)).
  cbv beta.
  rewrite (bind_ok _ _ s1 _ s1 (py_get_dict d1 "instance" (PStr "unknown") s1)),
          (bind_ok _ _ s2 _ s2 (py_get_dict d2 "instance" (PStr "unknown") s2)).
  cbv beta.
  rewrite (bind_ok _ _ s1 _ s1 (py_get_dict d1 "metric_value" (PInt 0) s1)),
          (bind_ok _ _ s2 _ s2 (py_get_dict d2 "metric_value" (PInt 0) s2)).
  cbv beta.
  rewrite (bind_ok _ _ s1 _ s1 (py_get_dict d1 "ai_confidence" (PStr "unknown") s1)),
          (bind_ok _ _ s2 _ s2 (py_get_dict d2 "ai_confidence" (PStr "unknown") s2)).
  cbv beta.
  rewrite (bind_ok _ _ s1 _ s1 (py_get_dict d1 "action" (PStr "scale_up") s1)),
          (bind_ok _ _ s2 _ s2 (py_get_dict d2 "action" (PStr "scale_up") s2)).
  cbv beta.
  rewrite H1, H2, H3, H4, H5.
  match goal with
  | |- fst (?m s1) = fst (?m s2) /\ _ =>
      assert (Hm : indistinguishable m m)
  end.
  { unfold N8nWorkflow.is_in_cooldown, N8nWorkflow.get_cooldown_remaining,
      N8nWorkflow.get_asg_info, N8nWorkflow.handle_scale_up,
      N8nWorkflow.handle_scale_down, N8nWorkflow.send_scaling_metric,
      N8nWorkflow.create_response, printf, json_dumps.
    repeat same_run_step. }
  apply Hm. exact Hs.
Qed.

(** X19. An event with a [body] key is an API Gateway event to the n8n
    handler: only its body is read, decoded by [json.loads] when it is a
    string, and the fields next to [body] are ignored. When the body is, or
    decodes to, a dict without a [body] key of its own, and both events can
    be printed, the event is handled as the direct invocation with that
    dict: same response, same calls to AWS. *)
Theorem n8n_gateway_event_is_its_body :
  forall (cfg : N8nWorkflow.Config) (env : Env) (g d : list (string * pyval)),
    dict_lookup g "body" = Some (PDict d)
    \/ (exists s, dict_lookup g "body" = Some (PStr s) /\ json_loads env s = Ok (PDict d)) ->
    dict_lookup d "body" = None ->
    (forall t, render env t (received (PDict g)) = None) ->
    (forall t, render env t (received (PDict d)) = None) ->
    indistinguishable (N8nWorkflow.lambda_handler cfg env (PDict g))
                      (N8nWorkflow.lambda_handler cfg env (PDict d)).
Proof.
  intros cfg env g d Hg Hd Hrg Hrd.
  apply (n8n_same_fields_same_run cfg env (PDict g) (PDict d) d d Hrg Hrd);
    try reflexivity.
  - unfold N8nWorkflow.parse_event, N8nWorkflow.has_body, N8nWorkflow.get_body.
    unfold_monad. cbn.
    destruct Hg as [Hg|[s [Hg Hs]]]; rewrite Hg; cbn; [reflexivity|rewrite Hs; reflexivity].
  - unfold N8nWorkflow.parse_event, N8nWorkflow.has_body. unfold_monad. cbn.
    rewrite Hd. reflexivity.
Qed.

(** A gateway event that wraps the test event, with a stray action next to
    the body. *)
Lemma n8n_gateway_event_is_its_body_witness :
  fst (N8nWorkflow.lambda_handler N8nWorkflow.default_config
         (fixed_env [production_asg 4] [] 0)
         (PDict [("action", PStr "scale_down"); ("body", test_event)]) st0)
  = fst (N8nWorkflow.lambda_handler N8nWorkflow.default_config
           (fixed_env [production_asg 4] [] 0) test_event st0).
Proof.
  apply (n8n_gateway_event_is_its_body N8nWorkflow.default_config
           (fixed_env [production_asg 4] [] 0)
           [("action", PStr "scale_down"); ("body", test_event)] test_event_fields
           (or_introl eq_refl) eq_refl (fun _ => eq_refl) (fun _ => eq_refl) st0 st0).
  split; reflexivity.
Defined.

(** X20. A request without [action] is a scale-up request to the n8n
    handler: when both can be printed, it is handled as the same request
    with [action = "scale_up"]. *)
Theorem n8n_missing_action_is_scale_up :
  forall (cfg : N8nWorkflow.Config) (env : Env) (d : list (string * pyval)),
    dict_lookup d "body" = None ->
    dict_lookup d "action" = None ->
    (forall t, render env t (received (PDict d)) = None) ->
    (forall t, render env t (received (PDict (("action", PStr "scale_up") :: d))) = None) ->
    indistinguishable
      (N8nWorkflow.lambda_handler cfg env (PDict d))
      (N8nWorkflow.lambda_handler cfg env (PDict (("action", PStr "scale_up") :: d))).
Proof.
  intros cfg env d Hbody Hact Hr1 Hr2.
  apply (n8n_same_fields_same_run cfg env (PDict d)
           (PDict (("action", PStr "scale_up") :: d)) d (("action", PStr "scale_up") :: d)
           Hr1 Hr2);
    try reflexivity.
  - unfold N8nWorkflow.parse_event, N8nWorkflow.has_body. unfold_monad. cbn.
    rewrite Hbody. reflexivity.
  - unfold N8nWorkflow.parse_event, N8nWorkflow.has_body. unfold_monad. cbn.
    rewrite Hbody. reflexivity.
  - unfold dict_get. cbn. rewrite Hact. reflexivity.
Qed.

(** A request that only names the alert. *)
Lemma n8n_missing_action_is_scale_up_witness :
  calls (snd (N8nWorkflow.lambda_handler N8nWorkflow.default_config
                (fixed_env [production_asg 4] [] 0)
                (PDict [("alert_type", PStr "cpu")]) st0))
  = calls (snd (N8nWorkflow.lambda_handler N8nWorkflow.default_config
                  (fixed_env [production_asg 4] [] 0)
                  (PDict [("action", PStr "scale_up"); ("alert_type", PStr "cpu")]) st0)).
Proof.
  apply (n8n_missing_action_is_scale_up N8nWorkflow.default_config
           (fixed_env [production_asg 4] [] 0) [("alert_type", PStr "cpu")]
           eq_refl eq_refl (fun _ => eq_refl) (fun _ => eq_refl) st0 st0).
  split; reflexivity.
Defined.

(** ** The instance health checks *)

Section HealthChecks.

Variable env : Env.
Variable ec2 : N8nHealth.Ec2.

(** [get_instance_health] returns whether the answer of EC2 passes the
    check, and [False] when the lookup raises; it raises nothing. *)
Lemma get_instance_health_run instance_id st :
  exists l,
    N8nHealth.get_instance_health ec2 instance_id st =
      (Ok (passes_health_check
             (N8nHealth.describe_instance_status ec2 (tick st) [instance_id])),
       mkSt (S (tick st)) (calls st) l).
Proof.
  unfold N8nHealth.get_instance_health, N8nHealth.ec2_query. unfold_monad. cbn.
  destruct (N8nHealth.describe_instance_status ec2 (tick st) [instance_id])
    as [[|status statuses]|e]; cbn; eexists; reflexivity.
Qed.

(** The loop keeps what it has collected and adds, in order, instances of
    the list it goes through. *)
Lemma check_instances_run instances :
  forall unhealthy st,
  exists flags l,
    N8nHealth.check_instances ec2 instances unhealthy st =
      (Ok (unhealthy
           ++ map fst (filter snd (combine (map InstanceId instances) flags))),
       mkSt (tick st + List.length instances) (calls st) l)
    /\ List.length flags = List.length instances
    /\ forall k instance,
         nth_error instances k = Some instance ->
         nth_error flags k =
           Some (negb (passes_health_check
                         (N8nHealth.describe_instance_status ec2 (tick st + k)
                            [InstanceId instance]))).
Proof.
  induction instances as [|instance rest IH]; intros unhealthy st.
  - exists [], (log st). cbn. rewrite app_nil_r, Nat.add_0_r.
    split; [destruct st; reflexivity|]. split; [reflexivity|].
    intros k i H. destruct k; discriminate H.
  - cbn [N8nHealth.check_instances]. cbv zeta.
    destruct (get_instance_health_run (InstanceId instance) st) as [l1 Hh].
    rewrite (bind_ok _ _ _ _ _ Hh).
    set (healthy := passes_health_check
                      (N8nHealth.describe_instance_status ec2 (tick st)
                         [InstanceId instance])) in *.
    destruct (IH (if healthy then unhealthy else unhealthy ++ [InstanceId instance])
                 (mkSt (S (tick st)) (calls st) l1))
      as [flags [l [Hrun [Hlen Hflags]]]].
    exists (negb healthy :: flags), l. rewrite Hrun. cbn [tick calls].
    split; [|split].
    + f_equal.
      * f_equal. cbn. destruct healthy; cbn; [reflexivity|].
        rewrite <- app_assoc. reflexivity.
      * f_equal. cbn. lia.
    + cbn. rewrite Hlen. reflexivity.
    + intros k i H. destruct k as [|k]; cbn in H.
      * inversion H; subst. cbn. rewrite Nat.add_0_r. reflexivity.
      * cbn. rewrite (Hflags k i H). cbn [tick].
        replace (S (tick st) + k)%nat with (tick st + S k)%nat by lia. reflexivity.
Qed.

End HealthChecks.

(** With an EC2 that answers by instance alone, the loop adds exactly the
    instances that do not pass the check. *)
Lemma check_instances_stable status_of instances :
  forall unhealthy st,
  exists l,
    N8nHealth.check_instances (stable_ec2 status_of) instances unhealthy st =
      (Ok (unhealthy
           ++ filter (fun instance_id => negb (passes_health_check (status_of [instance_id])))
                     (map InstanceId instances)),
       mkSt (tick st + List.length instances) (calls st) l).
Proof.
  induction instances as [|instance rest IH]; intros unhealthy st.
  - exists (log st). cbn. rewrite app_nil_r, Nat.add_0_r. destruct st; reflexivity.
  - cbn [N8nHealth.check_instances]. cbv zeta.
    destruct (get_instance_health_run (stable_ec2 status_of) (InstanceId instance) st)
      as [l1 Hh].
    rewrite (bind_ok _ _ _ _ _ Hh). cbn [stable_ec2 N8nHealth.describe_instance_status].
    destruct (IH (if passes_health_check (status_of [InstanceId instance])
                  then unhealthy else unhealthy ++ [InstanceId instance])
                 (mkSt (S (tick st)) (calls st) l1)) as [l Hrun].
    exists l. rewrite Hrun. cbn [tick calls map filter].
    f_equal.
    + f_equal. destruct (passes_health_check (status_of [InstanceId instance])); cbn;
        [reflexivity|]. rewrite <- app_assoc. reflexivity.
    + f_equal. cbn. lia.
Qed.

(** X21. When the group can be read and EC2 answers by instance alone,
    [get_unhealthy_instances] returns, in the order of the group, exactly
    the instances of the first group listed whose status lookup raises,
    finds nothing, or finds a first entry that is not running with both
    checks ok. It asks EC2 once per instance, and the lookup of the group
    is its only request to Auto Scaling. *)
Theorem get_unhealthy_instances_filters_the_group :
  forall (env : Env)
         (status_of : list string -> outcome (list N8nHealth.InstanceStatus))
         (asg_name : string) (st : St) (asg : ASG) (rest : list ASG),
    describe_auto_scaling_groups env (tick st) [asg_name] = Ok (asg :: rest) ->
    let run := N8nHealth.get_unhealthy_instances env (stable_ec2 status_of) asg_name st in
    fst run =
      Ok (filter (fun instance_id => negb (passes_health_check (status_of [instance_id])))
                 (map InstanceId (Instances asg)))
    /\ calls (snd run) = calls st ++ [DescribeAutoScalingGroups [asg_name]]
    /\ tick (snd run) = (tick st + 1 + List.length (Instances asg))%nat.
Proof.
  intros env status_of asg_name st asg rest Hasg run.
  assert (Hrun : exists l,
             run = (Ok (filter (fun instance_id =>
                                  negb (passes_health_check (status_of [instance_id])))
                               (map InstanceId (Instances asg))),
                    mkSt (S (tick st) + List.length (Instances asg))
                         (calls st ++ [DescribeAutoScalingGroups [asg_name]]) l)).
  { subst run.
    unfold N8nHealth.get_unhealthy_instances, N8nWorkflow.get_asg_info.
    unfold try_except, bind at 1, bind at 1, aws. cbn. rewrite Hasg. cbn.
    match goal with
    | |- context [N8nHealth.check_instances _ _ _ ?s] =>
        destruct (check_instances_stable status_of (Instances asg) [] s) as [l Hrun]
    end.
    rewrite Hrun. cbn. exists l. reflexivity. }
  destruct Hrun as [l Hrun]. rewrite Hrun. cbn. repeat split. lia.
Qed.

(** Three instances, of which the second is impaired and the third is
    unknown to EC2. *)
Lemma get_unhealthy_instances_filters_the_group_witness :
  fst (N8nHealth.get_unhealthy_instances
         (fixed_env [mkASG "production-asg" 3 2 10
                       [mkInstance "i-1" "Healthy"; mkInstance "i-2" "Healthy";
                        mkInstance "i-3" "Healthy"]] [] 0)
         (stable_ec2 (fun ids =>
                        if list_eq_dec string_dec ids ["i-1"] then Ok [healthy_status]
                        else if list_eq_dec string_dec ids ["i-2"] then Ok [impaired_status]
                        else Ok []))
         "production-asg" st0)
  = Ok ["i-2"; "i-3"].
Proof.
  apply (get_unhealthy_instances_filters_the_group
           (fixed_env [mkASG "production-asg" 3 2 10
                         [mkInstance "i-1" "Healthy"; mkInstance "i-2" "Healthy";
                          mkInstance "i-3" "Healthy"]] [] 0)
           (fun ids =>
              if list_eq_dec string_dec ids ["i-1"] then Ok [healthy_status]
              else if list_eq_dec string_dec ids ["i-2"] then Ok [impaired_status]
              else Ok [])
           "production-asg" st0 _ [] eq_refl).
Defined.

(** X22. [get_unhealthy_instances] raises nothing, whatever AWS answers:
    when the group cannot be read it returns the empty list, and otherwise
    a selection, in the order of the group, of the instances of the first
    group listed, in which an instance is kept exactly when its status
    lookup does not pass the check. In both cases the lookup of the group
    is its only request to Auto Scaling: it never changes the capacity. *)
Theorem get_unhealthy_instances_never_raises :
  forall (env : Env) (ec2 : N8nHealth.Ec2) (asg_name : string) (st : St),
    let run := N8nHealth.get_unhealthy_instances env ec2 asg_name st in
    calls (snd run) = calls st ++ [DescribeAutoScalingGroups [asg_name]]
    /\ match describe_auto_scaling_groups env (tick st) [asg_name] with
       | Ok (asg :: _) =>
           exists flags,
             fst run = Ok (map fst (filter snd (combine (map InstanceId (Instances asg))
                                                        flags)))
             /\ List.length flags = List.length (Instances asg)
             /\ forall k instance,
                  nth_error (Instances asg) k = Some instance ->
                  nth_error flags k =
                    Some (negb (passes_health_check
                                  (N8nHealth.describe_instance_status ec2
                                     (S (tick st) + k) [InstanceId instance])))
       | _ => fst run = Ok []
       end.
Proof.
  intros env ec2 asg_name st run.
  assert (Hrun : exists result l,
             run = (Ok result, mkSt (tick (snd run))
                                    (calls st ++ [DescribeAutoScalingGroups [asg_name]]) l)
             /\ match describe_auto_scaling_groups env (tick st) [asg_name] with
                | Ok (asg :: _) =>
                    exists flags,
                      result = map fst (filter snd (combine (map InstanceId (Instances asg))
                                                            flags))
                      /\ List.length flags = List.length (Instances asg)
                      /\ forall k instance,
                           nth_error (Instances asg) k = Some instance ->
                           nth_error flags k =
                             Some (negb (passes_health_check
                                           (N8nHealth.describe_instance_status ec2
                                              (S (tick st) + k) [InstanceId instance])))
                | _ => result = []
                end).
  { subst run.
    unfold N8nHealth.get_unhealthy_instances, N8nWorkflow.get_asg_info.
    unfold try_except, bind, aws, raise, ret, print. cbn.
    destruct (describe_auto_scaling_groups env (tick st) [asg_name])
      as [[|asg rest]|e]; cbn; try (do 2 eexists; split; reflexivity).
    match goal with
    | |- context [N8nHealth.check_instances _ _ _ ?s] =>
        destruct (check_instances_run ec2 (Instances asg) [] s)
          as [flags [l [Hrun [Hlen Hflags]]]]
    end.
    rewrite Hrun. cbn. do 2 eexists. split; [reflexivity|].
    exists flags. split; [reflexivity|]. split; [exact Hlen|exact Hflags]. }
  destruct Hrun as [result [l [Hrun Hres]]]. rewrite Hrun. cbn [fst snd calls].
  split; [reflexivity|].
  destruct (describe_auto_scaling_groups env (tick st) [asg_name]) as [[|asg rest]|e];
    try (rewrite Hres; reflexivity).
  destruct Hres as [flags [Hr Hf]]. exists flags. rewrite Hr. split; [reflexivity|exact Hf].
Qed.

(** ** The counters of the test server *)

(** X23. [test_endpoint] counts the request in [total_requests] before
    anything else. When it returns, which it does whenever [time.sleep]
    returns, it has counted the request once in one of the three class
    counters as well, as [always_500] and [always_404] always do, so that
    the difference between the total and the classified requests stays what
    it was; when [time.sleep] raises, the request is counted in the total
    and in no class. [reset_stats] puts all four counters to 0 and the
    start time to the clock. None of them touches the configuration. *)
Theorem counters_follow_the_requests :
  forall (ch : ErrorGenerator.Chance) (sleep : ErrorGenerator.Sleep) (now : Z)
         (app : ErrorGenerator.App),
    let counted n app' :=
      ErrorGenerator.total_requests (ErrorGenerator.stats app')
        = ErrorGenerator.total_requests (ErrorGenerator.stats app) + 1
      /\ classified (ErrorGenerator.stats app') = classified (ErrorGenerator.stats app) + n
      /\ ErrorGenerator.start_time (ErrorGenerator.stats app')
         = ErrorGenerator.start_time (ErrorGenerator.stats app)
      /\ ErrorGenerator.config app' = ErrorGenerator.config app in
    let delay := ErrorGenerator.response_delay (ErrorGenerator.config app) in
    let run := ErrorGenerator.test_endpoint ch sleep now app in
    (forall r, fst run = Ok r -> counted 1 (snd run))
    /\ (forall e, fst run = Raise e ->
          counted 0 (snd run)
          /\ ErrorGenerator.Qltb 0 delay = true /\ sleep delay = Some e)
    /\ ((ErrorGenerator.Qltb 0 delay = true -> sleep delay = None) ->
        exists r, fst run = Ok r)
    /\ counted 1 (snd (ErrorGenerator.always_500 now app))
    /\ counted 1 (snd (ErrorGenerator.always_404 now app))
    /\ ErrorGenerator.stats (snd (ErrorGenerator.reset_stats now app))
       = ErrorGenerator.mkStats 0 0 0 0 now
    /\ ErrorGenerator.config (snd (ErrorGenerator.reset_stats now app))
       = ErrorGenerator.config app.
Proof.
  intros ch sleep now app counted delay run. subst counted run. cbv beta.
  unfold ErrorGenerator.test_endpoint, ErrorGenerator.always_500,
    ErrorGenerator.always_404, ErrorGenerator.reset_stats, classified.
  cbv zeta. fold delay.
  split; [|split; [|split]].
  - intros r.
    destruct (ErrorGenerator.Qltb 0 delay); [destruct (sleep delay)|];
      repeat (break_match; cbn); intros H; try discriminate H;
      repeat split; cbn; lia.
  - intros e.
    destruct (ErrorGenerator.Qltb 0 delay); [destruct (sleep delay) as [e0|]|];
      repeat (break_match; cbn); intros H; try discriminate H;
      inversion H; subst; repeat split; cbn; lia.
  - intros Hsleep.
    destruct (ErrorGenerator.Qltb 0 delay); [rewrite (Hsleep eq_refl)|];
      repeat (break_match; cbn); eexists; reflexivity.
  - repeat split; cbn; lia.
Qed.

(** A delay of ten thousand million seconds, on a platform whose timestamps
    are 64-bit counts of nanoseconds. *)
Lemma counters_follow_the_requests_witness :
  let app := ErrorGenerator.mkApp (ErrorGenerator.mkStats 0 0 0 0 0)
               (ErrorGenerator.mkConfig 0 0 10000000000) 0 [] in
  let run := ErrorGenerator.test_endpoint (fixed_chance (3 # 10) 0) sleep_64 0 app in
  ErrorGenerator.total_requests (ErrorGenerator.stats (snd run)) = 1
  /\ classified (ErrorGenerator.stats (snd run)) = 0.
Proof.
  intros app run.
  destruct (counters_follow_the_requests (fixed_chance (3 # 10) 0) sleep_64 0 app)
    as [_ [Hraise _]].
  destruct (Hraise (mkExn "OverflowError"
                      [Lit "timestamp too large to convert to C _PyTime_t"]) eq_refl)
    as [[Htotal [Hclass _]] _].
  split; [exact Htotal|exact Hclass].
Defined.

(** X24. When [time.sleep] returns and [random.choice] picks inside the
    list it is given, [test_endpoint] returns, and the status it returns
    and the counter it increments go together: a status among 500, 502,
    503, 504 with the 5xx counter, a status among 400, 401, 403, 404, 429
    with the 4xx counter, or the status 200 with the 2xx counter; the two
    other counters keep their value. *)
Theorem test_endpoint_counts_what_it_returns :
  forall (ch : ErrorGenerator.Chance) (sleep : ErrorGenerator.Sleep) (now : Z)
         (app : ErrorGenerator.App),
    (forall t n, (0 < n)%nat -> (ErrorGenerator.randbelow ch t n < n)%nat) ->
    let delay := ErrorGenerator.response_delay (ErrorGenerator.config app) in
    (ErrorGenerator.Qltb 0 delay = true -> sleep delay = None) ->
    let run := ErrorGenerator.test_endpoint ch sleep now app in
    let before := ErrorGenerator.stats app in
    let after := ErrorGenerator.stats (snd run) in
    exists body status,
      fst run = Ok (body, status)
      /\ ((In status [500; 502; 503; 504]
           /\ ErrorGenerator.count_5xx after = ErrorGenerator.count_5xx before + 1
           /\ ErrorGenerator.count_4xx after = ErrorGenerator.count_4xx before
           /\ ErrorGenerator.count_2xx after = ErrorGenerator.count_2xx before)
          \/ (In status [400; 401; 403; 404; 429]
              /\ ErrorGenerator.count_5xx after = ErrorGenerator.count_5xx before
              /\ ErrorGenerator.count_4xx after = ErrorGenerator.count_4xx before + 1
              /\ ErrorGenerator.count_2xx after = ErrorGenerator.count_2xx before)
          \/ (status = 200
              /\ ErrorGenerator.count_5xx after = ErrorGenerator.count_5xx before
              /\ ErrorGenerator.count_4xx after = ErrorGenerator.count_4xx before
              /\ ErrorGenerator.count_2xx after = ErrorGenerator.count_2xx before + 1)).
Proof.
  intros ch sleep now app Hchoice delay Hsleep run before after.
  subst run before after.
  unfold ErrorGenerator.test_endpoint, ErrorGenerator.random_choice. cbv zeta.
  fold delay.
  assert (Hwait : (if ErrorGenerator.Qltb 0 delay then sleep delay else None) = None).
  { destruct (ErrorGenerator.Qltb 0 delay); [apply Hsleep|]; reflexivity. }
  rewrite Hwait.
  destruct (ErrorGenerator.Qltb _ (ErrorGenerator.error_rate_5xx _));
    [|destruct (ErrorGenerator.Qltb _ (ErrorGenerator.error_rate_4xx _))]; cbn [fst snd];
    eexists; eexists; (split; [reflexivity|]).
  - left. split; [|repeat split].
    apply nth_In. apply Hchoice. cbn. lia.
  - right; left. split; [|repeat split].
    apply nth_In. apply Hchoice. cbn. lia.
  - right; right. repeat split.
Qed.

(** Every draw is 0.3 against rates of a half; the choice is the first of
    the list. *)
Lemma test_endpoint_counts_what_it_returns_witness :
  exists body status,
    fst (ErrorGenerator.test_endpoint (fixed_chance (3 # 10) 0) patient 0
           (ErrorGenerator.mkApp (ErrorGenerator.mkStats 0 0 0 0 0)
                                 (ErrorGenerator.mkConfig (1 # 2) (1 # 2) 0) 0 []))
    = Ok (body, status)
    /\ In status [500; 502; 503; 504; 400; 401; 403; 404; 429; 200].
Proof.
  destruct (test_endpoint_counts_what_it_returns (fixed_chance (3 # 10) 0) patient 0
              (ErrorGenerator.mkApp (ErrorGenerator.mkStats 0 0 0 0 0)
                                    (ErrorGenerator.mkConfig (1 # 2) (1 # 2) 0) 0 [])
              (fun t n Hn => Hn) (fun _ => eq_refl))
    as [body [status [Hrun H]]].
  exists body, status. split; [exact Hrun|].
  destruct H as [[H _]|[[H _]|[H _]]].
  - repeat (destruct H as [H|H]; [rewrite <- H; cbn; tauto|]). destruct H.
  - repeat (destruct H as [H|H]; [rewrite <- H; cbn; tauto|]). destruct H.
  - rewrite H. cbn. tauto.
Defined.

(** X25. The 5xx rate is tried first. When [time.sleep] returns, with
    draws of [random.random()] that are at least 0 and rates that are at
    most 0, as when the server starts, [test_endpoint] always answers 200;
    with a first draw below 1 and a 5xx rate of at least 1 it always
    answers one of 500, 502, 503, 504, whatever the 4xx rate. *)
Theorem test_endpoint_at_the_extreme_rates :
  forall (ch : ErrorGenerator.Chance) (sleep : ErrorGenerator.Sleep) (now : Z)
         (app : ErrorGenerator.App),
    (forall t n, (0 < n)%nat -> (ErrorGenerator.randbelow ch t n < n)%nat) ->
    let delay := ErrorGenerator.response_delay (ErrorGenerator.config app) in
    (ErrorGenerator.Qltb 0 delay = true -> sleep delay = None) ->
    let t := ErrorGenerator.draws app in
    let rates := ErrorGenerator.config app in
    let run := ErrorGenerator.test_endpoint ch sleep now app in
    ((0 <= ErrorGenerator.random ch t)%Q ->
     (0 <= ErrorGenerator.random ch (S t))%Q ->
     (ErrorGenerator.error_rate_5xx rates <= 0)%Q ->
     (ErrorGenerator.error_rate_4xx rates <= 0)%Q ->
     exists body, fst run = Ok (body, 200))
    /\ ((ErrorGenerator.random ch t < 1)%Q ->
        (1 <= ErrorGenerator.error_rate_5xx rates)%Q ->
        exists body status,
          fst run = Ok (body, status) /\ In status [500; 502; 503; 504]).
Proof.
  intros ch sleep now app Hchoice delay Hsleep t rates run. subst run.
  unfold ErrorGenerator.test_endpoint, ErrorGenerator.random_choice. cbv zeta.
  fold delay. fold t. fold rates.
  assert (Hwait : (if ErrorGenerator.Qltb 0 delay then sleep delay else None) = None).
  { destruct (ErrorGenerator.Qltb 0 delay); [apply Hsleep|]; reflexivity. }
  rewrite Hwait. unfold ErrorGenerator.Qltb.
  split.
  - intros H1 H2 H5 H4.
    assert (Hle5 : Qle_bool (ErrorGenerator.error_rate_5xx rates)
                            (ErrorGenerator.random ch t) = true)
      by (apply Qle_bool_iff; eapply Qle_trans; eassumption).
    assert (Hle4 : Qle_bool (ErrorGenerator.error_rate_4xx rates)
                            (ErrorGenerator.random ch (S t)) = true)
      by (apply Qle_bool_iff; eapply Qle_trans; eassumption).
    rewrite Hle5, Hle4. cbn [negb fst]. eexists. reflexivity.
  - intros H1 H5.
    assert (Hlt : Qle_bool (ErrorGenerator.error_rate_5xx rates)
                           (ErrorGenerator.random ch t) = false).
    { destruct (Qle_bool _ _) eqn:Hb; [|reflexivity].
      apply Qle_bool_iff in Hb. exfalso.
      apply (Qlt_irrefl 1). eapply Qle_lt_trans; [exact H5|].
      eapply Qle_lt_trans; [exact Hb|exact H1]. }
    rewrite Hlt. cbn [negb fst snd].
    eexists. eexists. split; [reflexivity|].
    apply nth_In. apply Hchoice. cbn. lia.
Qed.

(** A server that has just started, and one set to fail always. *)
Lemma test_endpoint_at_the_extreme_rates_witness :
  (exists body,
     fst (ErrorGenerator.test_endpoint (fixed_chance (3 # 10) 0) patient 0
            (ErrorGenerator.mkApp (ErrorGenerator.mkStats 0 0 0 0 0)
                                  ErrorGenerator.initial_config 0 [])) = Ok (body, 200))
  /\ (exists body status,
        fst (ErrorGenerator.test_endpoint (fixed_chance (3 # 10) 0) patient 0
               (ErrorGenerator.mkApp (ErrorGenerator.mkStats 0 0 0 0 0)
                                     (ErrorGenerator.mkConfig 1 0 0) 0 []))
        = Ok (body, status)
        /\ In status [500; 502; 503; 504]).
Proof.
  split.
  - apply (proj1 (test_endpoint_at_the_extreme_rates (fixed_chance (3 # 10) 0) patient 0
                    (ErrorGenerator.mkApp (ErrorGenerator.mkStats 0 0 0 0 0)
                                          ErrorGenerator.initial_config 0 [])
                    (fun t n Hn => Hn) (fun _ => eq_refl))); cbn; unfold Qle; cbn; lia.
  - apply (proj2 (test_endpoint_at_the_extreme_rates (fixed_chance (3 # 10) 0) patient 0
                    (ErrorGenerator.mkApp (ErrorGenerator.mkStats 0 0 0 0 0)
                                          (ErrorGenerator.mkConfig 1 0 0) 0 [])
                    (fun t n Hn => Hn) (fun _ => eq_refl)));
      cbn; [unfold Qlt|unfold Qle]; cbn; lia.
Defined.
